(** * currencyConverter: the rate fetchers and the derived chart metrics

    A shallow embedding of [app2.py]: the two rate fetchers
    ([get_exchange_rate], [get_historical_rates]), the numeric part of
    [create_currency_chart] and the guard with which [main] calls it.

    - Python values read from a JSON body are the inductive [pyval]; a
      [dict] is a [gmap] from strings.
    - Python [float] is IEEE-754 binary64, taken from the Standard Library's
      executable specification [SpecFloat] (round to nearest, ties to even).
    - The network, the clock and the UI are a world threaded through a small
      exception-and-state monad [io]: [requests.get] appends the URL to the
      log of requests and answers as the environment says, given everything
      requested before; exceptions keep the world they were raised in. *)

From Stdlib Require Import ZArith Ascii String SpecFloat.
From stdpp Require Import base option list list_numbers strings gmap sorting.

Local Open Scope Z_scope.
Local Set Warnings "-register-all".

(** ** Python [float]: IEEE-754 binary64 *)

Module Float64.

Definition prec : Z := 53.
Definition emax : Z := 1024.

(** [float(z)] for an integer literal such as [100]. *)
Definition of_Z (z : Z) : spec_float := binary_normalize prec emax z 0 false.

Definition add : spec_float → spec_float → spec_float := SFadd prec emax.
Definition sub : spec_float → spec_float → spec_float := SFsub prec emax.
Definition mul : spec_float → spec_float → spec_float := SFmul prec emax.
Definition div : spec_float → spec_float → spec_float := SFdiv prec emax.

(** [x > y], [x >= y] and [x < y] on floats: false as soon as one side is
    a NaN. *)
Definition gt (x y : spec_float) : bool := SFltb y x.
Definition ge (x y : spec_float) : bool := SFleb y x.
Definition lt (x y : spec_float) : bool := SFltb x y.

(** [x == y] on floats. *)
Definition eqb (x y : spec_float) : bool := SFeqb x y.

Definition is_nan (x : spec_float) : bool :=
  match x with S754_nan => true | _ => false end.

(** The decimal literal [n/d] for [d] a power of ten, as Python reads it:
    the double nearest to the exact quotient.  Both [n] and [d] are exact
    doubles here, so the correctly rounded division is that double. *)
Definition decimal (n d : Z) : spec_float := div (of_Z n) (of_Z d).

Definition zero : spec_float := S754_zero false.
Definition hundred : spec_float := of_Z 100.
Definition lit_0_998 : spec_float := decimal 998 1000.
Definition lit_1_002 : spec_float := decimal 1002 1000.

(** A finite, strictly positive double: what the data model calls a
    positive real number. *)
Definition positive_finite (x : spec_float) : bool :=
  match x with S754_finite false _ _ => true | _ => false end.

(** The exact value of a finite double as a fraction [num / 2^k]
    (numerator, k), used to compare doubles with decimal constants. *)
Definition exact (x : spec_float) : option (Z * Z) :=
  match x with
  | S754_zero _ => Some (0, 0)
  | S754_finite s m e =>
      let v := if s then Z.neg m else Z.pos m in
      if 0 <=? e then Some (v * 2 ^ e, 0) else Some (v, - e)
  | _ => None
  end.

End Float64.

(** ** Python values and exceptions *)

Inductive exn :=
| ConnectionError   (* requests: the GET itself failed *)
| JSONDecodeError   (* response.json() on a body that is not JSON *)
| KeyError
| TypeError
| IndexError
| ValueError
| OverflowError.

Inductive result (A : Type) :=
| Ok (a : A)
| Raise (e : exn).
Arguments Ok {A} a.
Arguments Raise {A} e.

(** What [response.json()] can return. *)
Inductive pyval :=
| PNone
| PBool (b : bool)
| PInt (z : Z)
| PFloat (f : spec_float)
| PStr (s : string)
| PList (l : list pyval)
| PDict (d : gmap string pyval).

(** [v[k]] for a string key [k]: a dict looks the key up and raises
    [KeyError] when it is missing; every other value raises [TypeError]
    (a list or a string takes no string index, the others take none). *)
Definition getitem (v : pyval) (k : string) : result pyval :=
  match v with
  | PDict d => match d !! k with Some x => Ok x | None => Raise KeyError end
  | _ => Raise TypeError
  end.

(** [str.lower()], on the ASCII range the currency codes live in. *)
Definition ascii_lower (c : ascii) : ascii :=
  let n := N_of_ascii c in
  if ((65 <=? n) && (n <=? 90))%N then ascii_of_N (n + 32) else c.

Fixpoint lower (s : string) : string :=
  match s with
  | EmptyString => EmptyString
  | String c s' => String (ascii_lower c) (lower s')
  end.

(** ** The world: network, clock, UI *)

Record response := Response {
  status_code : Z;
  (** [response.json()]: the parsed body, or the exception it raises. *)
  json : result pyval
}.

Inductive ui_event :=
| StError (msg : string) (detail : option exn).

Record world := World {
  sent : list string;      (* every URL passed to requests.get, oldest first *)
  reads : nat;             (* how often datetime.now() was read *)
  shown : list ui_event    (* what st.error displayed, oldest first *)
}.

Definition initial_world : world := World [] 0 [].

Record environment := Environment {
  (** [requests.get(url)]: the response or the exception, which may depend
      on the requests issued before. *)
  http_get : list string → string → result response;
  (** [datetime.now()] at its k-th reading, as the proleptic Gregorian
      ordinal of the local date (0001-01-01 is day 1). *)
  clock : nat → Z;
  (** [.strftime('%Y-%m-%d')] of the date with that ordinal. *)
  strftime : Z → string
}.

Definition io (A : Type) : Type := world → result A * world.

Global Instance io_ret : MRet io := λ A a w, (Ok a, w).

Global Instance io_bind : MBind io := λ A B k m w,
  match m w with
  | (Ok a, w') => k a w'
  | (Raise e, w') => (Raise e, w')
  end.

(** [try: m  except ...: h] *)
Definition try_except {A} (m : io A) (h : exn → io A) : io A := λ w,
  match m w with
  | (Ok a, w') => (Ok a, w')
  | (Raise e, w') => h e w'
  end.

Definition lift {A} (r : result A) : io A := λ w, (r, w).

Definition MINORDINAL : Z := 1.          (* date.min = 0001-01-01 *)
Definition MAXORDINAL : Z := 3652059.    (* date.max = 9999-12-31 *)
Definition MAXDELTA : Z := 999999999.    (* timedelta.max.days *)

(** [dt - timedelta(days=i)] on the date part: [timedelta(days=i)] raises
    [OverflowError] beyond ±999999999 days, and so does the subtraction when
    the result leaves [date.min .. date.max]. *)
Definition minus_days (today i : Z) : result Z :=
  if (- MAXDELTA <=? i) && (i <=? MAXDELTA) then
    if (MINORDINAL <=? today - i) && (today - i <=? MAXORDINAL)
    then Ok (today - i) else Raise OverflowError
  else Raise OverflowError.

(** [range(days, 0, -1)]: days, days-1, ..., 1 (empty when days <= 0). *)
Definition range_down (days : Z) : list Z :=
  (λ k, days - k) <$> seqZ 0 days.

(** [for x in xs: s = body(s, x)], the exception of an iteration ending
    the loop. *)
Fixpoint for_each {S X} (body : S → X → io S) (xs : list X) (s : S) : io S :=
  match xs with
  | [] => mret s
  | x :: xs' => s' ← body s x; for_each body xs' s'
  end.

Section Program.

Context (E : environment).

Definition requests_get (url : string) : io response := λ w,
  (http_get E (sent w) url,
   World (sent w ++ [url]) (reads w) (shown w)).

Definition datetime_now : io Z := λ w,
  (Ok (clock E (reads w)), World (sent w) (S (reads w)) (shown w)).

Definition st_error (msg : string) (detail : option exn) : io unit := λ w,
  (Ok tt, World (sent w) (reads w) (shown w ++ [StError msg detail])).

(** *** [get_exchange_rate] *)

Definition latest_primary_url (from_currency : string) : string :=
  "https://cdn.jsdelivr.net/npm/@fawazahmed0/currency-api@latest/v1/currencies/"
    +:+ lower from_currency +:+ ".json".

Definition latest_fallback_url (from_currency : string) : string :=
  "https://latest.currency-api.pages.dev/v1/currencies/"
    +:+ lower from_currency +:+ ".json".

(** Returns the value found in the body, or [PNone] (Python's [None])
    after showing the error. *)
Definition get_exchange_rate (from_currency to_currency : string) : io pyval :=
  let primary_url := latest_primary_url from_currency in
  let fallback_url := latest_fallback_url from_currency in
  try_except
    (response ← requests_get primary_url;
     response ← (if bool_decide (status_code response ≠ 200)
                 then requests_get fallback_url
                 else mret response);
     data ← lift (json response);
     row ← lift (getitem data (lower from_currency));
     current_rate ← lift (getitem row (lower to_currency));
     mret current_rate)
    (λ e, st_error "Failed to fetch exchange rate: " (Some e);; mret PNone).

(** *** [get_historical_rates] *)

Definition historical_url (date from_currency : string) : string :=
  "https://cdn.jsdelivr.net/npm/@fawazahmed0/currency-api@" +:+ date
    +:+ "/v1/currencies/" +:+ lower from_currency +:+ ".json".

Definition historical_fallback_url (date from_currency : string) : string :=
  "https://" +:+ date +:+ ".currency-api.pages.dev/v1/currencies/"
    +:+ lower from_currency +:+ ".json".

(** One iteration of the loop, on the pair of lists [(rates, dates)].
    The date arithmetic and the two f-strings are outside the [try]; the
    bare [except] swallows everything raised inside it. *)
Definition historical_body (from_currency to_currency : string)
    (acc : list pyval * list string) (i : Z) : io (list pyval * list string) :=
  let '(rates, dates) := acc in
  now ← datetime_now;
  day ← lift (minus_days now i);
  let date := strftime E day in
  let url := historical_url date from_currency in
  let fallback_url := historical_fallback_url date from_currency in
  try_except
    (response ← requests_get url;
     response ← (if bool_decide (status_code response ≠ 200)
                 then requests_get fallback_url
                 else mret response);
     if bool_decide (status_code response = 200) then
       data ← lift (json response);
       row ← lift (getitem data (lower from_currency));
       rate ← lift (getitem row (lower to_currency));
       mret (rates ++ [rate], dates ++ [date])
     else mret (rates, dates))
    (λ _, mret (rates, dates)).

Definition get_historical_rates (from_currency to_currency : string)
    (days : Z) : io (list string * list pyval) :=
  '(rates, dates) ← for_each (historical_body from_currency to_currency)
                      (range_down days) ([], []);
  mret (dates, rates).

End Program.

(** ** [create_currency_chart]: the numbers behind the figure

    The [rates] column is a column of Python floats (dtype float64); the
    dates are parsed and then only label the points.  Of the figure we keep what is computed
    from the rates: the percent-change column, the padded axis range and
    the direction annotation. *)

Inductive direction :=
| Up      (* the arrow "↑", drawn in the green of a rise *)
| Down.   (* the arrow "↓", drawn in the red of a fall *)

Record chart := Chart {
  percent_change : list spec_float;
  min_rate : spec_float;
  max_rate : spec_float;
  overall_change : spec_float;
  arrow : direction
}.

(** [Series.min()] and [Series.max()]: NaN entries are skipped, and a column
    with nothing left gives NaN. *)
Definition column_fold (pick : spec_float → spec_float → bool)
    (xs : list spec_float) : spec_float :=
  match List.filter (λ x, negb (Float64.is_nan x)) xs with
  | [] => S754_nan
  | x :: xs' => foldl (λ m y, if pick y m then y else m) x xs'
  end.

Definition column_min : list spec_float → spec_float := column_fold Float64.lt.
Definition column_max : list spec_float → spec_float := column_fold Float64.gt.

(** [pd.to_datetime] on a list of strings: one timestamp for each string,
    or [None] for the [DateParseError], a [ValueError], of a list it cannot
    read as dates. The two laws are pandas': the index it returns is as
    long as the list, and the empty list gives the empty index. *)
Record pandas := Pandas {
  to_datetime : list string → option (list Z);
  to_datetime_length dates stamps :
    to_datetime dates = Some stamps → length stamps = length dates;
  to_datetime_nil : to_datetime [] = Some []
}.

Definition create_currency_chart (P : pandas) (dates : list string)
    (rates : list spec_float) : result chart :=
  (* pd.to_datetime(dates) *)
  match to_datetime P dates with
  | None => Raise ValueError
  | Some stamps =>
  (* pd.DataFrame: columns of different lengths are refused *)
  if bool_decide (length stamps ≠ length rates) then Raise ValueError else
  (* df['rate'].iloc[0] *)
  match head rates with
  | None => Raise IndexError
  | Some first_rate =>
      let pct := (λ r, Float64.mul
                         (Float64.div (Float64.sub r first_rate) first_rate)
                         Float64.hundred) <$> rates in
      let lo := Float64.mul (column_min rates) Float64.lit_0_998 in
      let hi := Float64.mul (column_max rates) Float64.lit_1_002 in
      (* df['rate'].iloc[-1] *)
      match last rates with
      | None => Raise IndexError
      | Some last_rate =>
          let overall := Float64.mul
                           (Float64.div (Float64.sub last_rate first_rate) first_rate)
                           Float64.hundred in
          Ok (Chart pct lo hi overall
                (if Float64.gt overall Float64.zero then Up else Down))
      end
  end
  end.

(** The data model's formula for a change relative to the first point,
    [(rate - first) / first * 100], to compare the chart with. *)
Definition change_pct (first r : spec_float) : spec_float :=
  Float64.mul (Float64.div (Float64.sub r first) first) Float64.hundred.

(** The series [(d0, 1.0), (d1, 1.1), (d2, 0.99)] and the single point
    [(d0, 2.5)] of the testable properties, with the literals as Python
    reads them and three days for the dates. *)
Definition three_dates : list string :=
  ["2026-10-31"; "2026-11-01"; "2026-11-02"].
Definition three_rates : list spec_float :=
  [Float64.decimal 10 10; Float64.decimal 11 10; Float64.decimal 99 100].
Definition lit_2_5 : spec_float := Float64.decimal 25 10.

(** A series that rises, [1.0, 1.1], and one that comes back to where it
    began, [1.1, 0.99, 1.1]. *)
Definition rising_rates : list spec_float :=
  [Float64.decimal 10 10; Float64.decimal 11 10].
Definition returning_rates : list spec_float :=
  [Float64.decimal 11 10; Float64.decimal 99 100; Float64.decimal 11 10].

(** A list in a condition is true when it is not empty. *)
Definition truthy {A} (l : list A) : bool :=
  match l with [] => false | _ => true end.

Definition insufficient_data : string :=
  "Could not retrieve sufficient historical data for chart".

(** [main], after the historical fetch: [if dates and rates:] build and
    plot the chart, [else:] show the error.  The result is the figure that
    was plotted, if any. *)
Definition show_history (P : pandas) (dates : list string)
    (rates : list spec_float) : io (option chart) :=
  if truthy dates && truthy rates then
    fig ← lift (create_currency_chart P dates rates);
    mret (Some fig)
  else
    st_error insufficient_data None;; mret None.

(** ** Reading the loop of [get_historical_rates] as a log of attempts *)

Section Attempts.

Context (E : environment).

(** The [try] block of one iteration, seen from outside: the rate it
    appends, or nothing. *)
Definition fetch_day (date from_currency to_currency : string)
    : io (option pyval) :=
  try_except
    (response ← requests_get E (historical_url date from_currency);
     response ← (if bool_decide (status_code response ≠ 200)
                 then requests_get E (historical_fallback_url date from_currency)
                 else mret response);
     if bool_decide (status_code response = 200) then
       data ← lift (json response);
       row ← lift (getitem data (lower from_currency));
       rate ← lift (getitem row (lower to_currency));
       mret (Some rate)
     else mret None)
    (λ _, mret None).

(** One iteration: the day it asks for and what the fetch gave. *)
Definition attempt (from_currency to_currency : string) (i : Z)
    : io (Z * option pyval) :=
  now ← datetime_now E;
  day ← lift (minus_days now i);
  o ← fetch_day (strftime E day) from_currency to_currency;
  mret (day, o).

Fixpoint attempts (from_currency to_currency : string) (ixs : list Z)
    : io (list (Z * option pyval)) :=
  match ixs with
  | [] => mret []
  | i :: ixs' =>
      a ← attempt from_currency to_currency i;
      log ← attempts from_currency to_currency ixs';
      mret (a :: log)
  end.

(** The attempts that found a rate, in order. *)
Definition present (log : list (Z * option pyval)) : list (Z * pyval) :=
  omap (λ a, (λ r, (a.1, r)) <$> a.2) log.

End Attempts.

(** ** URLs taken apart *)

(** Splits at the first slash: what comes before, and the rest from the
    slash on. *)
Fixpoint split_slash (s : string) : string * string :=
  match s with
  | EmptyString => (EmptyString, EmptyString)
  | String c s' =>
      if Ascii.eqb c "/" then (EmptyString, s)
      else let '(h, p) := split_slash s' in (String c h, p)
  end.

Fixpoint strip_prefix (p s : string) : option string :=
  match p, s with
  | EmptyString, _ => Some s
  | String a p', String b s' => if Ascii.eqb a b then strip_prefix p' s' else None
  | _, _ => None
  end.

(** Host and path of an https URL. *)
Definition url_host_path (url : string) : option (string * string) :=
  split_slash <$> strip_prefix "https://" url.

Fixpoint no_slash (s : string) : bool :=
  match s with
  | EmptyString => true
  | String c s' => negb (Ascii.eqb c "/") && no_slash s'
  end.

(** ** Rates as numbers *)

(** A rate that is a positive real number: a positive int or a finite
    positive float. *)
Definition positive_rate (v : pyval) : bool :=
  match v with
  | PInt z => 0 <? z
  | PFloat f => Float64.positive_finite f
  | _ => false
  end.

(** ** A calendar and data sources to run the fetchers on *)

(** [date.fromordinal(n)] as year, month, day: the proleptic Gregorian
    calendar, by the library's own division into 400-, 100-, 4- and 1-year
    cycles. *)
Definition days_before_month (month : Z) : Z :=
  nth (Z.to_nat month) [-1; 0; 31; 59; 90; 120; 151; 181; 212; 243; 273; 304; 334] 0.

Definition days_in_month (month : Z) : Z :=
  nth (Z.to_nat month) [-1; 31; 28; 31; 30; 31; 30; 31; 31; 30; 31; 30; 31] 0.

Definition ord2ymd (ordinal : Z) : Z * Z * Z :=
  let n := ordinal - 1 in
  let n400 := n / 146097 in let n := n mod 146097 in
  let n100 := n / 36524 in let n := n mod 36524 in
  let n4 := n / 1461 in let n := n mod 1461 in
  let n1 := n / 365 in let n := n mod 365 in
  let year := n400 * 400 + 1 + n100 * 100 + n4 * 4 + n1 in
  if (n1 =? 4) || (n100 =? 4) then (year - 1, 12, 31) else
  let leapyear := (n1 =? 3) && (negb (n4 =? 24) || (n100 =? 3)) in
  let month := (n + 50) / 32 in
  let preceding := days_before_month month
                   + (if (2 <? month) && leapyear then 1 else 0) in
  if n <? preceding then
    let month := month - 1 in
    let preceding := preceding
                     - (days_in_month month
                        + (if (month =? 2) && leapyear then 1 else 0)) in
    (year, month, n - preceding + 1)
  else (year, month, n - preceding + 1).

Definition digit (n : Z) : string :=
  String (ascii_of_N (48 + Z.to_N (n mod 10))) EmptyString.

(** ['%Y-%m-%d'] for a year of four digits. *)
Definition iso_date (ordinal : Z) : string :=
  let '(y, m, d) := ord2ymd ordinal in
  digit (y / 1000) +:+ digit (y / 100) +:+ digit (y / 10) +:+ digit y +:+ "-"
    +:+ digit (m / 10) +:+ digit m +:+ "-" +:+ digit (d / 10) +:+ digit d.

(** Reading ['%Y-%m-%d'] back: the ordinal of a date written with four,
    two and two digits, by the library's day count. Pandas reads these
    dates, the ones [get_historical_rates] writes; the years are kept inside
    the range of its nanosecond timestamps. *)
Definition digit_value (c : ascii) : option Z :=
  let n := N_of_ascii c in
  if ((48 <=? n) && (n <=? 57))%N then Some (Z.of_N n - 48) else None.

Definition is_leap (year : Z) : bool :=
  (year mod 4 =? 0) && (negb (year mod 100 =? 0) || (year mod 400 =? 0)).

Definition ymd2ord (year month day : Z) : Z :=
  let y := year - 1 in
  y * 365 + y / 4 - y / 100 + y / 400
  + days_before_month month + (if (2 <? month) && is_leap year then 1 else 0)
  + day.

Definition parse_iso_date (s : string) : option Z :=
  match s with
  | String y1 (String y2 (String y3 (String y4 (String "-"
      (String m1 (String m2 (String "-"
        (String d1 (String d2 EmptyString))))))))) =>
      a ← digit_value y1; b ← digit_value y2;
      c ← digit_value y3; d ← digit_value y4;
      e ← digit_value m1; f ← digit_value m2;
      g ← digit_value d1; h ← digit_value d2;
      let year := a * 1000 + b * 100 + c * 10 + d in
      let month := e * 10 + f in
      let day := g * 10 + h in
      if (1678 <=? year) && (year <=? 2261)
         && (1 <=? month) && (month <=? 12) && (1 <=? day)
         && (day <=? days_in_month month
                     + (if (month =? 2) && is_leap year then 1 else 0))
      then Some (ymd2ord year month day) else None
  | _ => None
  end.

(** A [pd.to_datetime] for lists of such dates; it refuses every other
    list. *)
Definition iso_dates : pandas :=
  Pandas (mapM parse_iso_date)
    (λ dates stamps H, eq_sym (length_mapM parse_iso_date dates stamps H))
    eq_refl.

(** 2026-11-03. *)
Definition a_tuesday : Z := 739923.

(** The body [{"usd": {"eur": v}}]. *)
Definition usd_eur_body (v : pyval) : pyval :=
  PDict {[ "usd" := PDict {[ "eur" := v ]} ]}.

Definition lit_0_9 : spec_float := Float64.decimal 9 10.
Definition lit_minus_1_5 : spec_float := SFopp (Float64.decimal 15 10).

(** A source whose every answer is the same response, on 2026-11-03. *)
Definition constant_source (r : result response) : environment :=
  Environment (λ _ _, r) (λ _, a_tuesday) iso_date.

(** Both hosts healthy: status 200 and the rate 0.9. *)
Definition healthy_source : environment :=
  constant_source (Ok (Response 200 (Ok (usd_eur_body (PFloat lit_0_9))))).

(** Both hosts answer 200 with a negative number for the pair. *)
Definition negative_source : environment :=
  constant_source (Ok (Response 200 (Ok (usd_eur_body (PFloat lit_minus_1_5))))).

(** The primary answers 404 with a body that is no JSON; the mirror answers
    503 with a well-formed body. *)
Definition failing_mirror : environment :=
  Environment
    (λ earlier _,
       match earlier with
       | [] => Ok (Response 404 (Raise JSONDecodeError))
       | _ => Ok (Response 503 (Ok (usd_eur_body (PFloat lit_0_9))))
       end)
    (λ _, a_tuesday) iso_date.

(** Every value the source can serve for the pair, whatever the URL, the
    history and the status. *)
Definition served (E : environment) (from_currency to_currency : string)
    (v : pyval) : Prop :=
  ∃ earlier url resp data row,
    http_get E earlier url = Ok resp
    ∧ json resp = Ok data
    ∧ getitem data (lower from_currency) = Ok row
    ∧ getitem row (lower to_currency) = Ok v.

(** One endpoint's answer is a fetch failure: the GET raised, or the status
    is not 200, or the body is no JSON or lacks the pair. *)
Definition fetch_failure (from_currency to_currency : string)
    (r : result response) : Prop :=
  match r with
  | Raise _ => True
  | Ok resp =>
      status_code resp ≠ 200
      ∨ ∀ v, ¬ (∃ data row, json resp = Ok data
                  ∧ getitem data (lower from_currency) = Ok row
                  ∧ getitem row (lower to_currency) = Ok v)
  end.

(** The part of every URL after the version or date. *)
Definition currencies_path (from_currency : string) : string :=
  "/v1/currencies/" +:+ lower from_currency +:+ ".json".

(** Two URLs that differ in the host and in nothing else. *)
Definition differ_only_in_host (url1 url2 : string) : Prop :=
  ∃ host1 host2 path,
    url_host_path url1 = Some (host1, path)
    ∧ url_host_path url2 = Some (host2, path)
    ∧ host1 ≠ host2.

(** ** More data sources *)

(** A source that forgets what was asked before. *)
Definition history_blind (E : environment) : Prop :=
  ∀ earlier1 earlier2 url, http_get E earlier1 url = http_get E earlier2 url.

(** A clock that never goes back. *)
Definition clock_monotone (E : environment) : Prop :=
  ∀ j k, (j ≤ k)%nat → clock E j ≤ clock E k.

(** No host can be reached. *)
Definition unreachable_source : environment :=
  constant_source (Raise ConnectionError).

(** The CDN answers 404, the mirror answers 200 with the rate 0.9. *)
Definition cdn_down : environment :=
  Environment
    (λ _ url,
       match strip_prefix "https://cdn.jsdelivr.net/" url with
       | Some _ => Ok (Response 404 (Raise JSONDecodeError))
       | None => Ok (Response 200 (Ok (usd_eur_body (PFloat lit_0_9))))
       end)
    (λ _, a_tuesday) iso_date.

(** Midnight passes between any two readings of the clock. *)
Definition midnight_source : environment :=
  Environment
    (λ _ _, Ok (Response 200 (Ok (usd_eur_body (PFloat lit_0_9)))))
    (λ k, a_tuesday + Z.of_nat k) iso_date.

(** ** [query_for_news]: the text of the reply and the JSON inside it *)

(** [s.startswith(p)] *)
Fixpoint startswith (p s : string) : bool :=
  match p, s with
  | EmptyString, _ => true
  | String a p', String b s' => Ascii.eqb a b && startswith p' s'
  | String _ _, EmptyString => false
  end.

(** [s.find(pat)]: the index of the first occurrence, or -1. *)
Fixpoint find (pat s : string) : Z :=
  if startswith pat s then 0 else
  match s with
  | EmptyString => -1
  | String _ s' => let i := find pat s' in if i =? -1 then -1 else i + 1
  end.

(** [s.rfind(pat)]: the index of the last occurrence, or -1. *)
Fixpoint rfind (pat s : string) : Z :=
  match s with
  | EmptyString => if startswith pat s then 0 else -1
  | String _ s' =>
      let i := rfind pat s' in
      if i =? -1 then (if startswith pat s then 0 else -1) else i + 1
  end.

(** [s[a:b]] for indices that are not negative, the only ones the code
    forms: the characters from [a] up to [b], none when [b <= a]. *)
Definition slice (a b : Z) (s : string) : string :=
  substring (Z.to_nat a) (Z.to_nat (b - a)) s.

(** A Python [str] is modelled by its UTF-8 bytes; the fences are ASCII,
    so searching and slicing by bytes cut the text where the code cuts it.

    White space as [str.strip()] sees it: the characters for which
    [isspace()] holds, each by its UTF-8 encoding. They are U+0009 to
    U+000D, U+001C to U+0020, U+0085, U+00A0, U+1680, U+2000 to U+200A,
    U+2028, U+2029, U+202F, U+205F and U+3000. *)
Definition is_space (c : ascii) : bool :=
  let n := N_of_ascii c in
  (((9 <=? n) && (n <=? 13)) || ((28 <=? n) && (n <=? 32)))%N.

Definition is_space2 (a b : ascii) : bool :=
  let '(x, y) := (N_of_ascii a, N_of_ascii b) in
  ((x =? 194) && ((y =? 133) || (y =? 160)))%N.

Definition is_space3 (a b c : ascii) : bool :=
  let '(x, y, z) := (N_of_ascii a, N_of_ascii b, N_of_ascii c) in
  (((x =? 225) && (y =? 154) && (z =? 128))
   || ((x =? 226) && (y =? 128)
       && (((128 <=? z) && (z <=? 138)) || (z =? 168) || (z =? 169)
           || (z =? 175)))
   || ((x =? 226) && (y =? 129) && (z =? 159))
   || ((x =? 227) && (y =? 128) && (z =? 128)))%N.

(** The text after one white-space character at its front, if it starts
    with one. *)
Definition drop_space (s : string) : option string :=
  match s with
  | String a s1 =>
      if is_space a then Some s1 else
      match s1 with
      | String b s2 =>
          if is_space2 a b then Some s2 else
          match s2 with
          | String c s3 => if is_space3 a b c then Some s3 else None
          | EmptyString => None
          end
      | EmptyString => None
      end
  | EmptyString => None
  end.

(** The same from the back, on the reversed text. *)
Definition drop_space_rev (s : string) : option string :=
  match s with
  | String a s1 =>
      if is_space a then Some s1 else
      match s1 with
      | String b s2 =>
          if is_space2 b a then Some s2 else
          match s2 with
          | String c s3 => if is_space3 c b a then Some s3 else None
          | EmptyString => None
          end
      | EmptyString => None
      end
  | EmptyString => None
  end.

(** Drops for as long as there is something to drop; a text has no more
    characters than bytes. *)
Fixpoint drop_while (drop : string → option string) (fuel : nat)
    (s : string) : string :=
  match fuel with
  | O => s
  | S fuel' =>
      match drop s with
      | Some rest => drop_while drop fuel' rest
      | None => s
      end
  end.

Definition lstrip (s : string) : string :=
  drop_while drop_space (String.length s) s.

Definition rstrip (s : string) : string :=
  String.rev (drop_while drop_space_rev (String.length s) (String.rev s)).

Definition strip (s : string) : string := rstrip (lstrip s).

(** A text given by its bytes, and the no-break space U+00A0. *)
Definition utf8 (bytes : list Z) : string :=
  fold_right (λ n s, String (ascii_of_N (Z.to_N n)) s) EmptyString bytes.
Definition nbsp : string := utf8 [194; 160].

(** What [query_for_news] gets from outside. *)
Record news_service := NewsService {
  (** [st.secrets["API_KEY"]] and [genai.Client(...)], before the [try]. *)
  client : result unit;
  (** [chunk.text] of the chunks the stream yields for a pair, in order:
      a text, [None], or the exception that ends the stream. *)
  chunks : string → string → list (result (option string));
  (** [json.loads] *)
  json_loads : string → result pyval
}.

(** [result = ""; for chunk in stream: result += chunk.text] *)
Fixpoint read_stream (stream : list (result (option string)))
    (result_text : string) : result string :=
  match stream with
  | [] => Ok result_text
  | Ok (Some text) :: rest => read_stream rest (result_text +:+ text)
  | Ok None :: _ => Raise TypeError   (* str + None *)
  | Raise e :: _ => Raise e
  end.

Definition query_for_news (S : news_service)
    (from_currency to_currency : string) : io pyval :=
  lift (client S);;
  try_except
    (result_text ← lift (read_stream (chunks S from_currency to_currency) "");
     let json_start := find "```json" result_text in
     let json_end := rfind "```" result_text in
     if negb (json_start =? -1) && negb (json_end =? -1) then
       let json_text := strip (slice (json_start + 7) json_end result_text) in
       news_articles ← lift (json_loads S json_text);
       mret news_articles
     else
       try_except
         (lift (json_loads S result_text))
         (λ _, st_error "Failed to parse news response" None;;
               mret (PList [])))
    (λ e, st_error "Error fetching news: " (Some e);; mret (PList [])).

Fixpoint no_backtick (s : string) : bool :=
  match s with
  | EmptyString => true
  | String c s' => negb (Ascii.eqb c "`") && no_backtick s'
  end.

(** A stand-in for [json.loads] that knows two texts. *)
Definition toy_json_loads (text : string) : result pyval :=
  if String.eqb text "[]" then Ok (PList [])
  else if String.eqb text "[1]" then Ok (PList [PInt 1])
  else Raise JSONDecodeError.

Definition toy_news (stream : list (result (option string))) : news_service :=
  NewsService (Ok tt) (λ _ _, stream) toy_json_loads.

(** ** [main]: the rates column *)

(** The truth value of a Python value in a condition. *)
Definition py_truthy (v : pyval) : bool :=
  match v with
  | PNone => false
  | PBool b => b
  | PInt z => negb (z =? 0)
  | PFloat x => negb (Float64.eqb x Float64.zero)
  | PStr s => negb (String.eqb s "")
  | PList l => truthy l
  | PDict d => negb (Nat.eqb (size d) 0)
  end.

(** Python numbers: [int] (with [bool] as 0 and 1) and [float]. *)
Inductive pynum :=
| NInt (z : Z)
| NFloat (x : spec_float).

Definition as_number (v : pyval) : option pynum :=
  match v with
  | PBool b => Some (NInt (if b then 1 else 0))
  | PInt z => Some (NInt z)
  | PFloat x => Some (NFloat x)
  | _ => None
  end.

(** [float(z)]: the nearest double; [None] stands for the [OverflowError]
    of an integer too large for a float. *)
Definition int_to_float (z : Z) : option spec_float :=
  match Float64.of_Z z with
  | S754_infinity _ => None
  | x => Some x
  end.

Definition to_float (n : pynum) : option spec_float :=
  match n with
  | NInt z => int_to_float z
  | NFloat x => Some x
  end.

(** [a - b]. [None] stands for the exception: [TypeError] when an operand
    is no number, [OverflowError] when an integer is too large to meet a
    float. *)
Definition py_sub (a b : pyval) : option pyval :=
  match as_number a, as_number b with
  | Some (NInt x), Some (NInt y) => Some (PInt (x - y))
  | Some x, Some y =>
      match to_float x, to_float y with
      | Some fx, Some fy => Some (PFloat (Float64.sub fx fy))
      | _, _ => None
      end
  | _, _ => None
  end.

(** An integer as the unrounded float it is. *)
Definition exact_int (z : Z) : spec_float :=
  match z with
  | 0 => S754_zero false
  | Z.pos p => S754_finite false p 0
  | Z.neg p => S754_finite true p 0
  end.

Definition is_zero (x : spec_float) : bool :=
  match x with S754_zero _ => true | _ => false end.

(** [a / b], always a float. [None] stands for the exception:
    [ZeroDivisionError] for a zero divisor, [TypeError] when an operand is
    no number, [OverflowError] when an integer or the quotient of two
    integers is too large for a float. Two integers are divided exactly and
    the quotient rounded once. *)
Definition py_truediv (a b : pyval) : option spec_float :=
  match as_number a, as_number b with
  | Some (NInt x), Some (NInt y) =>
      if y =? 0 then None else
      match Float64.div (exact_int x) (exact_int y) with
      | S754_infinity _ => None
      | q => Some q
      end
  | Some x, Some y =>
      match to_float x, to_float y with
      | Some fx, Some fy =>
          if is_zero fy then None else Some (Float64.div fx fy)
      | _, _ => None
      end
  | _, _ => None
  end.

(** [f"{v:.6f}"], as far as it can fail: numbers are formatted, an integer
    after its conversion to a float; a string has no format code [f], and
    the other values take no format string. *)
Definition format_f (v : pyval) : result unit :=
  match v with
  | PFloat _ => Ok tt
  | PInt z =>
      match int_to_float z with Some _ => Ok tt | None => Raise OverflowError end
  | PBool _ => Ok tt
  | PStr _ => Raise ValueError
  | PNone | PList _ | PDict _ => Raise TypeError
  end.

(** [main], lines 361 to 378: the comparison with yesterday. The result is
    what the names [change] and [percent_change] are bound to afterwards,
    [None] when they are not bound. The bare [except] binds both to 0,
    whatever was raised in the [try], the arithmetic included. *)
Definition yesterday_change (E : environment)
    (from_currency to_currency : string) (current_rate : pyval)
    : io (option (pyval * pyval)) :=
  now ← datetime_now E;
  day ← lift (minus_days now 1);
  let yesterday := strftime E day in
  let yesterday_url := historical_url yesterday from_currency in
  let fallback_yesterday_url := historical_fallback_url yesterday from_currency in
  let swallowed : io (option (pyval * pyval)) := mret (Some (PInt 0, PInt 0)) in
  try_except
    (response ← requests_get E yesterday_url;
     response ← (if bool_decide (status_code response ≠ 200)
                 then requests_get E fallback_yesterday_url
                 else mret response);
     if bool_decide (status_code response = 200) then
       data ← lift (json response);
       row ← lift (getitem data (lower from_currency));
       yesterday_rate ← lift (getitem row (lower to_currency));
       match py_sub current_rate yesterday_rate with
       | None => swallowed
       | Some change =>
           match py_truediv change yesterday_rate with
           | None => swallowed
           | Some quotient =>
               mret (Some (change,
                           PFloat (Float64.mul quotient Float64.hundred)))
           end
       end
     else mret None)
    (λ _, swallowed).

(** What [main] goes on to do with the history. *)
Inductive history_action :=
| PlotChart (dates : list string) (rates : list pyval)
    (* create_currency_chart(dates, rates, ...) is called and plotted *)
| NoChart.
    (* the insufficient-data error was shown *)

Record rate_card := RateCard {
  card_rate : pyval;
  card_change : option (pyval * pyval);
  card_history : history_action
}.

(** [main], lines 356 to 412, up to the call of [create_currency_chart]:
    the fetches, the clock readings and the formatting of the numbers, the
    only parts of the card that can fail. [None] when the latest rate is
    false and nothing is shown. *)
Definition main_rates (E : environment) (from_currency to_currency : string)
    : io (option rate_card) :=
  current_rate ← get_exchange_rate E from_currency to_currency;
  if py_truthy current_rate then
    daily ← yesterday_change E from_currency to_currency current_rate;
    lift (format_f current_rate);;
    match daily with
    | Some (change, percent) =>
        lift (format_f change);; lift (format_f percent)
    | None => mret tt
    end;;
    datetime_now E;;   (* the "Last updated" caption *)
    '(dates, rates) ← get_historical_rates E from_currency to_currency 30;
    if truthy dates && truthy rates then
      mret (Some (RateCard current_rate daily (PlotChart dates rates)))
    else
      st_error insufficient_data None;;
      mret (Some (RateCard current_rate daily NoChart))
  else mret None.

(** The latest rate is 0.9 and yesterday's is 0. *)
Definition zero_yesterday : environment :=
  Environment
    (λ _ url,
       match strip_prefix (latest_primary_url "USD") url with
       | Some _ => Ok (Response 200 (Ok (usd_eur_body (PFloat lit_0_9))))
       | None => Ok (Response 200 (Ok (usd_eur_body (PInt 0))))
       end)
    (λ _, a_tuesday) iso_date.

(** The source serves a string for the pair. *)
Definition string_source : environment :=
  constant_source (Ok (Response 200 (Ok (usd_eur_body (PStr "0.9"))))).

(** * Properties *)

(** ** Binary64 facts the chart needs *)

Section Float64Facts.

Import Float64.

Lemma hundred_finite : hundred = S754_finite false 7036874417766400 (-46).
Proof. reflexivity. Qed.

(** [r - r] is [+0.0] for every finite non-zero double. *)
Lemma sub_diag s m e :
  sub (S754_finite s m e) (S754_finite s m e) = S754_zero false.
Proof.
  unfold sub, SFsub. cbv zeta.
  by rewrite Z.sub_diag.
Qed.

(** [(r - r) / r * 100] is a zero, [+0.0] when [r] is positive. *)
Lemma change_from_self s m e :
  mul (div (sub (S754_finite s m e) (S754_finite s m e)) (S754_finite s m e))
      hundred = S754_zero s.
Proof. rewrite sub_diag, hundred_finite. by destruct s. Qed.

Lemma positive_finite_inv r :
  positive_finite r = true → ∃ m e, r = S754_finite false m e.
Proof. destruct r as [| | |[] m e]; try done. eauto. Qed.

Lemma column_fold_singleton pick m e s :
  column_fold pick [S754_finite s m e] = S754_finite s m e.
Proof. reflexivity. Qed.

End Float64Facts.

(** ** The chart *)

Section ChartFacts.

Import Float64.
Context (P : pandas).

Lemma create_currency_chart_ok dates stamps rates first :
  to_datetime P dates = Some stamps →
  length dates = length rates →
  head rates = Some first →
  ∃ lst,
    last rates = Some lst ∧
    create_currency_chart P dates rates
    = Ok (Chart (change_pct first <$> rates)
            (mul (column_min rates) lit_0_998)
            (mul (column_max rates) lit_1_002)
            (change_pct first lst)
            (if gt (change_pct first lst) zero then Up else Down)).
Proof.
  intros Hparse Hlen Hhead. unfold create_currency_chart. rewrite Hparse.
  rewrite bool_decide_eq_false_2;
    [|rewrite (to_datetime_length P _ _ Hparse); by intros []].
  rewrite Hhead.
  destruct (last rates) as [lst|] eqn:Hlast.
  - by exists lst.
  - apply last_None in Hlast. by subst.
Qed.

(** Dates that do not parse, or columns of different lengths: the
    [ValueError] of pandas. *)
Lemma create_currency_chart_refused dates rates :
  to_datetime P dates = None ∨ length dates ≠ length rates →
  create_currency_chart P dates rates = Raise ValueError.
Proof.
  unfold create_currency_chart.
  destruct (to_datetime P dates) as [stamps|] eqn:Hparse; [|done].
  intros [?|Hlen]; [done|].
  rewrite bool_decide_eq_true_2; [done|].
  by rewrite (to_datetime_length P _ _ Hparse).
Qed.


(** The chart on dates that parse and closed rates, by computation. *)
Lemma create_currency_chart_run dates stamps rates first lst :
  to_datetime P dates = Some stamps →
  length dates = length rates →
  head rates = Some first →
  last rates = Some lst →
  create_currency_chart P dates rates
  = Ok (Chart (change_pct first <$> rates)
          (mul (column_min rates) lit_0_998)
          (mul (column_max rates) lit_1_002)
          (change_pct first lst)
          (if gt (change_pct first lst) zero then Up else Down)).
Proof.
  intros Hparse Hlen Hhead Hlast.
  destruct (create_currency_chart_ok dates stamps rates first Hparse Hlen Hhead)
    as (lst' & Hlast' & Hc).
  rewrite Hlast in Hlast'. injection Hlast' as <-. exact Hc.
Qed.

End ChartFacts.

Section ChartClaims.

Import Float64.

Lemma eqb_zero_not_gt x : eqb x zero = true → gt x zero = false.
Proof. by destruct x as [[]|[]| |[] m e]. Qed.

(** C1. For the empty series the derivation as [main] performs it ends in
    the insufficient-data message: with empty [dates] and [rates] the
    guard shows "Could not retrieve sufficient historical data for chart",
    raises nothing and touches neither network nor clock; and whatever the
    two lists are, the indexing error that [create_currency_chart] has in
    store for an empty column never comes out of it. *)
Theorem empty_series_insufficient_data P :
  (∀ w, show_history P [] [] w
        = (Ok None,
           World (sent w) (reads w)
                 (shown w ++ [StError insufficient_data None])))
  ∧ (∀ dates rates w, (show_history P dates rates w).1 ≠ Raise IndexError).
Proof.
  split; [done|].
  intros dates rates w. unfold show_history.
  destruct dates as [|d dates], rates as [|r rates]; try done.
  cbn [truthy andb]. unfold mbind, io_bind, lift.
  destruct (to_datetime P (d :: dates)) as [stamps|] eqn:Hparse.
  - destruct (decide (length (d :: dates) = length (r :: rates))) as [Hlen|Hlen].
    + destruct (create_currency_chart_ok P (d :: dates) stamps (r :: rates) r
                  Hparse Hlen eq_refl) as (lst & _ & Hc).
      by rewrite Hc.
    + rewrite create_currency_chart_refused; [done|by right].
  - rewrite create_currency_chart_refused; [done|by left].
Qed.

(** C4, as amended. For every non-empty series whose dates parse the chart
    exists, its percent-change column has one entry per point, entry [i]
    being [(rate[i] - rate[0]) / rate[0] * 100] relative to the first point
    of the series it was given, and the overall change is that formula at
    the last point.  On [(d0, 1.0), (d1, 1.1), (d2, 0.99)], for any three
    dates that parse, the column is [+0.0], 5629499534213125 / 2^49 and
    -4503599627370500 / 2^52 (printed 10.000000000000009 and
    -1.0000000000000009, each within 1e-14 of 10 and -1), the overall
    change is the last of them and the direction is down. *)
Theorem percent_change_relative_to_first :
  (∀ P dates stamps rates first,
      to_datetime P dates = Some stamps →
      length dates = length rates →
      head rates = Some first →
      ∃ c lst,
        create_currency_chart P dates rates = Ok c
        ∧ last rates = Some lst
        ∧ length (percent_change c) = length rates
        ∧ (∀ i r, rates !! i = Some r →
                  percent_change c !! i = Some (change_pct first r))
        ∧ overall_change c = change_pct first lst)
  ∧ (∀ P dates stamps,
        to_datetime P dates = Some stamps →
        length dates = 3%nat →
        ∃ c,
          create_currency_chart P dates three_rates = Ok c
          ∧ percent_change c
            = [S754_zero false;
               S754_finite false 5629499534213125 (-49);
               S754_finite true 4503599627370500 (-52)]
          ∧ overall_change c = S754_finite true 4503599627370500 (-52)
          ∧ arrow c = Down
          ∧ Z.abs (5629499534213125 - 10 * 2 ^ 49) * 10 ^ 14 < 2 ^ 49
          ∧ Z.abs (- 4503599627370500 - (- 1) * 2 ^ 52) * 10 ^ 14 < 2 ^ 52).
Proof.
  split.
  - intros P dates stamps rates first Hparse Hlen Hhead.
    destruct (create_currency_chart_ok P dates stamps rates first
                Hparse Hlen Hhead) as (lst & Hlast & Hc).
    eexists _, lst. split; [exact Hc|]. cbn [percent_change overall_change].
    split_and!; [done|by rewrite length_fmap| |done].
    intros i r Hi. by rewrite list_lookup_fmap, Hi.
  - intros P dates stamps Hparse Hlen.
    eexists. split.
    { by apply (create_currency_chart_run P dates stamps three_rates
                  (decimal 10 10) (decimal 99 100)). }
    cbn [percent_change overall_change arrow].
    split_and!; [by vm_compute..| |]; by vm_compute.
Qed.

(** C6. For every non-empty series whose dates parse the chart exists, its
    overall change is [(rate[last] - rate[0]) / rate[0] * 100], and its
    direction is up exactly when that number is [> 0] and down in every
    other case; a change equal to zero is therefore down. The series
    [1.0, 1.1] is up; the series [1.1, 0.99, 1.1], whose change is zero,
    is down. *)
Theorem direction_up_iff_positive :
  (∀ P dates stamps rates,
      to_datetime P dates = Some stamps →
      length dates = length rates →
      rates ≠ [] →
      ∃ c first lst,
        create_currency_chart P dates rates = Ok c
        ∧ head rates = Some first
        ∧ last rates = Some lst
        ∧ overall_change c = change_pct first lst
        ∧ (arrow c = Up ↔ gt (change_pct first lst) zero = true)
        ∧ (arrow c = Down ↔ gt (change_pct first lst) zero = false)
        ∧ (eqb (change_pct first lst) zero = true → arrow c = Down))
  ∧ (∀ P dates stamps,
        to_datetime P dates = Some stamps →
        length dates = 2%nat →
        ∃ c, create_currency_chart P dates rising_rates = Ok c
             ∧ gt (overall_change c) zero = true
             ∧ arrow c = Up)
  ∧ (∀ P dates stamps,
        to_datetime P dates = Some stamps →
        length dates = 3%nat →
        ∃ c, create_currency_chart P dates returning_rates = Ok c
             ∧ overall_change c = zero
             ∧ arrow c = Down).
Proof.
  split_and!.
  - intros P dates stamps rates Hparse Hlen Hne.
    destruct rates as [|first rates]; [done|].
    destruct (create_currency_chart_ok P dates stamps (first :: rates) first
                Hparse Hlen eq_refl) as (lst & Hlast & Hc).
    eexists _, first, lst. split; [exact Hc|]. cbn [overall_change arrow].
    split_and!; [done..| | |].
    + by destruct (gt (change_pct first lst) zero).
    + by destruct (gt (change_pct first lst) zero).
    + intros Hz%eqb_zero_not_gt. by rewrite Hz.
  - intros P dates stamps Hparse Hlen. eexists. split.
    { by apply (create_currency_chart_run P dates stamps rising_rates
                  (decimal 10 10) (decimal 11 10)). }
    cbn [overall_change arrow]. split; by vm_compute.
  - intros P dates stamps Hparse Hlen. eexists. split.
    { by apply (create_currency_chart_run P dates stamps returning_rates
                  (decimal 11 10) (decimal 11 10)). }
    cbn [overall_change arrow]. split; by vm_compute.
Qed.

(** C7. A series of one point, with a date that parses and a positive
    finite rate, does not fail: the percent-change column is [[0]], the
    overall change is 0, the direction is down and the range is
    [(rate * 0.998, rate * 1.002)]; on [(d0, 2.5)] the range is the pair of
    doubles written 2.495 and 2.505. *)
Theorem single_point_series :
  (∀ P d stamps r,
      to_datetime P [d] = Some stamps →
      positive_finite r = true →
      create_currency_chart P [d] [r]
      = Ok (Chart [zero] (mul r lit_0_998) (mul r lit_1_002) zero Down))
  ∧ (∀ P d stamps,
        to_datetime P [d] = Some stamps →
        create_currency_chart P [d] [lit_2_5]
        = Ok (Chart [zero] (decimal 2495 1000) (decimal 2505 1000) zero Down)).
Proof.
  assert (∀ P d stamps r,
            to_datetime P [d] = Some stamps →
            positive_finite r = true →
            create_currency_chart P [d] [r]
            = Ok (Chart [zero] (mul r lit_0_998) (mul r lit_1_002) zero Down))
    as Hone.
  { intros P d stamps r Hparse (m & e & ->)%positive_finite_inv.
    rewrite (create_currency_chart_run P [d] stamps [S754_finite false m e]
               (S754_finite false m e) (S754_finite false m e)) by done.
    cbn [fmap list_fmap].
    unfold column_min, column_max. rewrite !column_fold_singleton.
    unfold change_pct. by rewrite change_from_self. }
  split; [exact Hone|].
  intros P d stamps Hparse. by rewrite (Hone P d stamps lit_2_5 Hparse).
Qed.

End ChartClaims.

Example iso_date_today : iso_date a_tuesday = "2026-11-03".
Proof. reflexivity. Qed.
Example iso_date_epoch : iso_date 719163 = "1970-01-01".
Proof. reflexivity. Qed.
Example iso_date_leap : iso_date 738945 = "2024-02-29".
Proof. reflexivity. Qed.

(** ** The fetchers *)

Ltac io_unfold :=
  unfold mbind, io_bind, mret, io_ret, try_except, lift,
    requests_get, datetime_now, st_error in *.

Ltac io_run := io_unfold; cbn [sent reads shown fst snd] in *.

Section FetchFacts.

Context (E : environment).
Implicit Types (w : world) (v : pyval).

(** The try block of a day always ends normally, after one request or
    two, and leaves clock and UI alone. *)
Lemma fetch_day_total date f t w :
  ∃ o w',
    fetch_day E date f t w = (Ok o, w')
    ∧ reads w' = reads w ∧ shown w' = shown w
    ∧ (sent w' = sent w ++ [historical_url date f]
       ∨ sent w' = sent w ++ [historical_url date f;
                              historical_fallback_url date f]).
Proof.
  unfold fetch_day. io_run.
  destruct (http_get E (sent w) _) as [r1|e1]; [|eauto 10].
  case_bool_decide as Hs1.
  - cbn [sent]. destruct (http_get E (sent w ++ _) _) as [r2|e2].
    + case_bool_decide;
        [destruct (json r2) as [d|]; [destruct (getitem d _) as [row|];
          [destruct (getitem row _)|]|]|];
        do 2 eexists; (split; [reflexivity|]); cbn;
        rewrite <- ?app_assoc; eauto.
    + do 2 eexists; (split; [reflexivity|]); cbn;
        rewrite <- ?app_assoc; eauto.
  - case_bool_decide;
      [destruct (json r1) as [d|]; [destruct (getitem d _) as [row|];
        [destruct (getitem row _)|]|]|];
      do 2 eexists; (split; [reflexivity|]); cbn; eauto.
Qed.

(** A rate the try block found is a value the source served. *)
Lemma fetch_day_served date f t w v w' :
  fetch_day E date f t w = (Ok (Some v), w') → served E f t v.
Proof.
  unfold fetch_day, served. io_run.
  destruct (http_get E (sent w) _) as [r1|e1] eqn:H1; [|done].
  case_bool_decide as Hs1.
  - cbn [sent]. destruct (http_get E (sent w ++ _) _) as [r2|e2] eqn:H2; [|done].
    case_bool_decide; [|done].
    destruct (json r2) as [d|] eqn:Hj; [|done].
    destruct (getitem d _) as [row|] eqn:Hrow; [|done].
    destruct (getitem row _) as [x|] eqn:Hx; [|done].
    intros [= <- <-]. eauto 10.
  - case_bool_decide; [|done].
    destruct (json r1) as [d|] eqn:Hj; [|done].
    destruct (getitem d _) as [row|] eqn:Hrow; [|done].
    destruct (getitem row _) as [x|] eqn:Hx; [|done].
    intros [= <- <-]. eauto 10.
Qed.

(** The body of the loop is an attempt followed by the two appends. *)
Lemma historical_body_attempt f t rates dates i w :
  historical_body E f t (rates, dates) i w
  = (a ← attempt E f t i;
     mret (match a.2 with
           | Some rate => (rates ++ [rate], dates ++ [strftime E a.1])
           | None => (rates, dates)
           end)) w.
Proof.
  unfold historical_body, attempt, fetch_day. io_run.
  destruct (minus_days _ i) as [day|]; [|done].
  destruct (http_get E (sent w) _) as [r1|e1]; [|done].
  case_bool_decide as Hs1.
  - cbn [sent]. destruct (http_get E (sent w ++ _) _) as [r2|e2]; [|done].
    case_bool_decide; [|done].
    destruct (json r2) as [d|]; [|done].
    destruct (getitem d _) as [row|]; [|done].
    by destruct (getitem row _).
  - case_bool_decide; [|done].
    destruct (json r1) as [d|]; [|done].
    destruct (getitem d _) as [row|]; [|done].
    by destruct (getitem row _).
Qed.

(** The loop is the log of its attempts, filtered to the days that gave a
    rate. *)
Lemma for_each_attempts f t ixs rates dates w :
  for_each (historical_body E f t) ixs (rates, dates) w
  = (log ← attempts E f t ixs;
     mret (rates ++ (present log).*2,
           dates ++ (strftime E <$> (present log).*1))) w.
Proof.
  revert rates dates w. induction ixs as [|i ixs IH]; intros rates dates w.
  - cbn. unfold mbind, io_bind, mret, io_ret. by rewrite !app_nil_r.
  - cbn [for_each attempts].
    unfold mbind at 1, io_bind at 1. rewrite historical_body_attempt.
    unfold mbind, io_bind, mret, io_ret in *.
    destruct (attempt E f t i w) as [[[day o]|e] w1]; [|done].
    cbn [fst snd]. destruct o as [rate|]; rewrite IH;
      destruct (attempts E f t ixs w1) as [[log|e] w2]; try done;
      unfold present; cbn; by rewrite <- ?app_assoc.
Qed.

Lemma get_historical_rates_attempts f t days w :
  get_historical_rates E f t days w
  = (log ← attempts E f t (range_down days);
     mret (strftime E <$> (present log).*1, (present log).*2)) w.
Proof.
  unfold get_historical_rates.
  unfold mbind at 1, io_bind at 1. rewrite for_each_attempts.
  unfold mbind, io_bind, mret, io_ret.
  by destruct (attempts E f t (range_down days) w) as [[log|e] w1].
Qed.

End FetchFacts.

Section LoopFacts.

Context (E : environment).
Implicit Types (w : world) (v : pyval) (log : list (Z * option pyval)).

(** An attempt whose date exists reads the clock once and ends normally
    after one request or two; the only exception of an attempt is the
    [OverflowError] of a date that does not exist, raised before any
    request. *)
Lemma attempt_cases f t i w :
  match attempt E f t i w with
  | (Ok (day, o), w') =>
      minus_days (clock E (reads w)) i = Ok day
      ∧ (∃ w1, fetch_day E (strftime E day) f t w1 = (Ok o, w'))
      ∧ reads w' = S (reads w) ∧ shown w' = shown w
      ∧ ∃ new, sent w' = sent w ++ new ∧ (1 ≤ length new ≤ 2)%nat
  | (Raise e, w') =>
      e = OverflowError
      ∧ minus_days (clock E (reads w)) i = Raise OverflowError
      ∧ sent w' = sent w
  end.
Proof.
  unfold attempt. unfold mbind at 1, io_bind at 1, datetime_now at 1.
  unfold mbind at 1, io_bind at 1, lift at 1.
  destruct (minus_days (clock E (reads w)) i) as [day|e] eqn:Hday.
  - set (w0 := World (sent w) (S (reads w)) (shown w)).
    destruct (fetch_day_total E (strftime E day) f t w0)
      as (o & w' & Hf & Hr & Hs & Hsent).
    unfold mbind, io_bind, mret, io_ret. rewrite Hf.
    split_and!; [done|by exists w0|done|done|].
    destruct Hsent as [->| ->]; eexists; (split; [reflexivity|]); cbn; lia.
  - assert (e = OverflowError) as ->.
    { unfold minus_days in Hday. repeat case_match; congruence. }
    done.
Qed.

Lemma attempts_cases f t ixs w :
  match attempts E f t ixs w with
  | (Ok log, w') =>
      Forall2 (λ a i, ∃ k, minus_days (clock E k) i = Ok a.1) log ixs
      ∧ Forall (λ a, ∃ w1 w2,
                   fetch_day E (strftime E a.1) f t w1 = (Ok a.2, w2)) log
      ∧ ∃ new, sent w' = sent w ++ new
               ∧ (length ixs ≤ length new ≤ 2 * length ixs)%nat
  | (Raise e, w') => e = OverflowError
  end.
Proof.
  revert w. induction ixs as [|i ixs IH]; intros w.
  - cbn. split_and!; [done..|]. exists []. by rewrite app_nil_r.
  - cbn [attempts]. unfold mbind at 1, io_bind at 1.
    pose proof (attempt_cases f t i w) as Ha.
    destruct (attempt E f t i w) as [[[day o]|e] w1]; [|by destruct Ha].
    destruct Ha as (Hday & (w0 & Hf) & _ & _ & new1 & Hs1 & Hn1).
    unfold mbind, io_bind, mret, io_ret.
    specialize (IH w1).
    destruct (attempts E f t ixs w1) as [[log|e] w2]; [|done].
    destruct IH as (Hdays & Hfs & new2 & Hs2 & Hn2).
    split_and!.
    + constructor; [by eexists|done].
    + constructor; [by do 2 eexists|done].
    + exists (new1 ++ new2). rewrite Hs2, Hs1, <- app_assoc.
      split; [done|]. rewrite length_app. cbn [length]. lia.
Qed.

(** With the clock on one day and every date of the window in the
    calendar, the attempts all end normally and ask for the days
    [today - i] in the order of the indices. *)
Lemma attempts_window f t today ixs w :
  (∀ k, clock E k = today) →
  Forall (λ i, minus_days today i = Ok (today - i)) ixs →
  ∃ log w',
    attempts E f t ixs w = (Ok log, w')
    ∧ log.*1 = (λ i, today - i) <$> ixs.
Proof.
  intros Hclock. revert w.
  induction ixs as [|i ixs IH]; intros w Hok.
  - by do 2 eexists.
  - apply Forall_cons in Hok as [Hi Hok].
    cbn [attempts]. unfold mbind at 1, io_bind at 1.
    pose proof (attempt_cases f t i w) as Ha.
    destruct (attempt E f t i w) as [[[day o]|e] w1].
    + destruct Ha as (Hday & _). rewrite Hclock, Hi in Hday.
      injection Hday as <-.
      destruct (IH w1 Hok) as (log & w' & Hlog & Hdays).
      unfold mbind, io_bind, mret, io_ret. rewrite Hlog.
      do 2 eexists. split; [done|]. cbn. by rewrite Hdays.
    + destruct Ha as (_ & Hday & _). rewrite Hclock, Hi in Hday. done.
Qed.

Lemma present_sublist log : (present log).*1 `sublist_of` log.*1.
Proof.
  induction log as [|[day [r|]] log IH]; cbn; [done|..].
  - by apply sublist_skip.
  - by apply sublist_cons.
Qed.

Lemma present_served f t log :
  Forall (λ a, ∃ w1 w2,
            fetch_day E (strftime E a.1) f t w1 = (Ok a.2, w2)) log →
  Forall (λ p, served E f t p.2) (present log).
Proof.
  induction 1 as [|[day [r|]] log (w1 & w2 & Hf) _ IH]; cbn; [done| |done].
  constructor; [|done]. by eapply fetch_day_served.
Qed.

(** Every rate of the returned list is a value the source served. *)
Lemma historical_rates_served f t days w dates rates w' :
  get_historical_rates E f t days w = (Ok (dates, rates), w') →
  Forall (served E f t) rates.
Proof.
  rewrite get_historical_rates_attempts.
  pose proof (attempts_cases f t (range_down days) w) as Hlog.
  unfold mbind, io_bind, mret, io_ret.
  destruct (attempts E f t (range_down days) w) as [[log|e] w1]; [|done].
  destruct Hlog as (_ & Hfetch & _). intros [= _ <- _].
  apply Forall_fmap. by apply present_served.
Qed.

End LoopFacts.

Lemma range_down_days today N :
  (λ i, today - i) <$> range_down N = seqZ (today - N) N.
Proof.
  unfold range_down. rewrite <- list_fmap_compose.
  transitivity (Z.add (today - N) <$> seqZ 0 N);
    [|by rewrite fmap_add_seqZ, Z.add_0_r].
  apply list_fmap_ext. intros _ k _. cbn. lia.
Qed.

Lemma range_down_bounds N : Forall (λ i, 1 ≤ i ≤ N) (range_down N).
Proof.
  unfold range_down. rewrite Forall_fmap. apply Forall_seqZ.
  intros k Hk. cbn. lia.
Qed.

Lemma seqZ_sorted m n : StronglySorted Z.lt (seqZ m n).
Proof.
  destruct (decide (0 ≤ n)) as [Hn|Hn]; [|rewrite seqZ_nil by lia; constructor].
  rewrite <- (Z2Nat.id n) by done. clear Hn.
  induction (Z.to_nat n) as [|k IH]; [constructor|].
  rewrite seqZ_S. apply StronglySorted_app; split_and!; [|done|by repeat constructor].
  intros x y Hx%elem_of_seqZ Hy%list_elem_of_singleton. lia.
Qed.

Lemma sublist_sorted {A} (R : relation A) (l k : list A) :
  l `sublist_of` k → StronglySorted R k → StronglySorted R l.
Proof.
  induction 1 as [|x l k Hlk IH|x l k Hlk IH]; intros Hk; [done|..].
  - apply StronglySorted_cons in Hk as [Hx Hk].
    apply StronglySorted_cons. split; [|auto].
    rewrite Forall_forall in Hx |- *. intros y Hy. apply Hx.
    by eapply elem_of_sublist.
  - apply StronglySorted_cons in Hk as [_ Hk]. auto.
Qed.

Section SeriesClaims.

Context (E : environment).

(** C10. Whatever the data source does, when [get_historical_rates]
    returns, its two lists are the dates and the rates of the attempts
    that found a rate, in the order of the attempts: they have the same
    length, and at every index the rate is the one the try block of that
    date produced, a value the source served. The call can end otherwise
    only by the [OverflowError] of a date before the calendar. *)
Theorem dates_and_rates_paired f t days w :
  match get_historical_rates E f t days w with
  | (Ok (dates, rates), w') =>
      length dates = length rates
      ∧ (∃ log,
            attempts E f t (range_down days) w = (Ok log, w')
            ∧ dates = strftime E <$> (present log).*1
            ∧ rates = (present log).*2)
      ∧ (∀ i d r,
            dates !! i = Some d → rates !! i = Some r →
            served E f t r
            ∧ ∃ w1 w2, fetch_day E d f t w1 = (Ok (Some r), w2))
  | (Raise e, _) => e = OverflowError
  end.
Proof.
  rewrite get_historical_rates_attempts.
  pose proof (attempts_cases E f t (range_down days) w) as Hlog.
  unfold mbind, io_bind, mret, io_ret.
  destruct (attempts E f t (range_down days) w) as [[log|e] w']; [|done].
  destruct Hlog as (_ & Hfetch & _).
  split_and!; [by rewrite !length_fmap|by exists log|].
  intros i d r Hd Hr.
  apply list_lookup_fmap_Some in Hd as (day & -> & Hday).
  apply list_lookup_fmap_Some in Hday as ([day' r'] & -> & Hp).
  apply list_lookup_fmap_Some in Hr as ([day'' r''] & -> & Hp').
  rewrite Hp in Hp'. injection Hp' as <- <-. cbn [fst snd].
  split.
  - eapply (Forall_lookup_1 _ _ _ _ (present_served E f t log Hfetch) Hp).
  - apply list_elem_of_lookup_2 in Hp.
    unfold present in Hp. apply list_elem_of_omap in Hp as ([dy o] & Hin & Ho).
    cbn in Ho. destruct o as [rate|]; [|done]. injection Ho as -> ->.
    rewrite Forall_forall in Hfetch. apply (Hfetch _ Hin).
Qed.

(** C3, as amended. For a window of [N ≥ 0] days whose oldest date is in
    the calendar ([today - N] is at least 0001-01-01), with the clock
    staying on [today] during the call: the call makes exactly [N]
    attempts, for the days from [today - N] up to [today - 1], oldest
    first, each with one request or two; it returns the dates and rates of
    the attempts that found a rate and nothing for the others, so the
    series has at most [N] points, on strictly increasing and distinct
    days. *)
Theorem window_series f t N today w :
  0 ≤ N →
  MINORDINAL ≤ today - N →
  today ≤ MAXORDINAL →
  (∀ k, clock E k = today) →
  ∃ log w' new,
    attempts E f t (range_down N) w = (Ok log, w')
    ∧ log.*1 = seqZ (today - N) N
    ∧ length log = Z.to_nat N
    ∧ get_historical_rates E f t N w
      = (Ok (strftime E <$> (present log).*1, (present log).*2), w')
    ∧ sent w' = sent w ++ new
    ∧ (Z.to_nat N ≤ length new ≤ 2 * Z.to_nat N)%nat
    ∧ (present log).*1 `sublist_of` seqZ (today - N) N
    ∧ StronglySorted Z.lt (present log).*1
    ∧ NoDup (present log).*1
    ∧ (length (present log) ≤ Z.to_nat N)%nat.
Proof.
  intros HN Hmin Hmax Hclock.
  assert (Forall (λ i, minus_days today i = Ok (today - i)) (range_down N))
    as Hdays.
  { eapply Forall_impl; [apply range_down_bounds|]. cbn. intros i Hi.
    unfold minus_days, MINORDINAL, MAXORDINAL, MAXDELTA in *.
    rewrite !andb_true_intro; [done|split; lia|split; lia]. }
  destruct (attempts_window E f t today (range_down N) w Hclock Hdays)
    as (log & w' & Hlog & Hfst).
  rewrite range_down_days in Hfst.
  pose proof (attempts_cases E f t (range_down N) w) as Hcases.
  rewrite Hlog in Hcases. destruct Hcases as (_ & _ & new & Hsent & Hnew).
  assert (length (range_down N) = Z.to_nat N) as Hlen.
  { unfold range_down. by rewrite length_fmap, length_seqZ. }
  assert ((present log).*1 `sublist_of` seqZ (today - N) N) as Hsub.
  { rewrite <- Hfst. apply present_sublist. }
  exists log, w', new. split_and!; try done.
  - by rewrite <- (length_fmap fst), Hfst, length_seqZ.
  - rewrite get_historical_rates_attempts.
    unfold mbind, io_bind, mret, io_ret. by rewrite Hlog.
  - lia.
  - lia.
  - eapply sublist_sorted; [done|apply seqZ_sorted].
  - eapply sublist_NoDup; [apply NoDup_seqZ|done].
  - apply sublist_length in Hsub.
    by rewrite length_fmap, length_seqZ in Hsub.
Qed.

End SeriesClaims.

(** A window that starts before 0001-01-01 ends in the first iteration,
    at the date arithmetic, before any request. *)
Lemma window_too_long_raises E f t N w :
  0 < N →
  clock E (reads w) - N < MINORDINAL →
  get_historical_rates E f t N w
  = (Raise OverflowError, World (sent w) (S (reads w)) (shown w)).
Proof.
  intros HN Hday. unfold get_historical_rates, range_down.
  rewrite seqZ_cons by done. cbn [fmap list_fmap for_each].
  unfold historical_body. io_run.
  rewrite Z.sub_0_r. unfold minus_days.
  destruct (_ && _); [|done].
  rewrite (proj2 (Z.leb_gt _ _) Hday). done.
Qed.

(** C3, the claim as written fails: on 2026-11-03 a window of 739923 days
    starts on the day before 0001-01-01, and the call raises
    [OverflowError] before its first request instead of returning a
    series. *)
Lemma window_before_calendar_raises :
  get_historical_rates healthy_source "USD" "EUR" a_tuesday initial_world
  = (Raise OverflowError, World [] 1 []).
Proof. by apply window_too_long_raises. Qed.

(** ** The latest rate *)

Section LatestFacts.

Context (E : environment).
Implicit Types (w : world) (v : pyval).

(** [get_exchange_rate] never raises, and sends the primary request and at
    most the fallback request after it. *)
Lemma get_exchange_rate_total f t w :
  ∃ v w',
    get_exchange_rate E f t w = (Ok v, w')
    ∧ reads w' = reads w
    ∧ (sent w' = sent w ++ [latest_primary_url f]
       ∨ sent w' = sent w ++ [latest_primary_url f; latest_fallback_url f]).
Proof.
  unfold get_exchange_rate. io_run.
  destruct (http_get E (sent w) _) as [r1|e1]; [|eauto 10].
  case_bool_decide as Hs1.
  - cbn [sent]. destruct (http_get E (sent w ++ _) _) as [r2|e2];
      [destruct (json r2) as [d|]; [destruct (getitem d _) as [row|];
        [destruct (getitem row _)|]|]|];
      do 2 eexists; (split; [reflexivity|]); cbn;
      rewrite <- ?app_assoc; eauto.
  - destruct (json r1) as [d|]; [destruct (getitem d _) as [row|];
      [destruct (getitem row _)|]|];
      do 2 eexists; (split; [reflexivity|]); cbn; eauto.
Qed.

(** What it returns is [None] or a value the source served. *)
Lemma get_exchange_rate_served f t w v w' :
  get_exchange_rate E f t w = (Ok v, w') → v = PNone ∨ served E f t v.
Proof.
  unfold get_exchange_rate, served. io_run.
  destruct (http_get E (sent w) _) as [r1|e1] eqn:H1; [|intros [= <- _]; by left].
  case_bool_decide as Hs1.
  - cbn [sent]. destruct (http_get E (sent w ++ _) _) as [r2|e2] eqn:H2;
      [|intros [= <- _]; by left].
    destruct (json r2) as [d|] eqn:Hj; [|intros [= <- _]; by left].
    destruct (getitem d _) as [row|] eqn:Hrow; [|intros [= <- _]; by left].
    destruct (getitem row _) as [x|] eqn:Hx; [|intros [= <- _]; by left].
    intros [= <- _]. right. eauto 10.
  - destruct (json r1) as [d|] eqn:Hj; [|intros [= <- _]; by left].
    destruct (getitem d _) as [row|] eqn:Hrow; [|intros [= <- _]; by left].
    destruct (getitem row _) as [x|] eqn:Hx; [|intros [= <- _]; by left].
    intros [= <- _]. right. eauto 10.
Qed.

(** The historical try block gives nothing when the response it ends up
    with is a fetch failure: the day is skipped. *)
Lemma fetch_day_both_fail date f t w :
  let r1 := http_get E (sent w) (historical_url date f) in
  let r2 := http_get E (sent w ++ [historical_url date f])
              (historical_fallback_url date f) in
  fetch_failure f t r1 → fetch_failure f t r2 →
  ∃ w', fetch_day E date f t w = (Ok None, w').
Proof.
  intros r1 r2 Hf1 Hf2. subst r1 r2. unfold fetch_day. io_run.
  destruct (http_get E (sent w) _) as [r1|e1]; [|by eexists].
  case_bool_decide as Hs1.
  - cbn [sent]. destruct (http_get E (sent w ++ _) _) as [r2|e2]; [|by eexists].
    case_bool_decide as Hs2; [|by eexists].
    destruct Hf2 as [?|Hno]; [done|].
    destruct (json r2) as [d|] eqn:Hj; [|by eexists].
    destruct (getitem d _) as [row|] eqn:Hrow; [|by eexists].
    destruct (getitem row _) as [x|] eqn:Hx; [|by eexists].
    destruct (Hno x). eauto.
  - destruct Hf1 as [?|Hno]; [done|].
    case_bool_decide; [|by eexists].
    destruct (json r1) as [d|] eqn:Hj; [|by eexists].
    destruct (getitem d _) as [row|] eqn:Hrow; [|by eexists].
    destruct (getitem row _) as [x|] eqn:Hx; [|by eexists].
    destruct (Hno x). eauto.
Qed.

End LatestFacts.

Section FetcherClaims.

Context (E : environment).
Implicit Types (w : world) (v : pyval).

(** C5. When the primary endpoint answers with status 200 and a body that
    holds a value for the pair, the fetch returns exactly that value after
    this one request: [get_exchange_rate] returns [body[base][quote]], and
    an iteration of [get_historical_rates] appends it, with its date, to
    the two lists. *)
Theorem primary_value_passed_through f t w resp data row v :
  status_code resp = 200 →
  json resp = Ok data →
  getitem data (lower f) = Ok row →
  getitem row (lower t) = Ok v →
  (http_get E (sent w) (latest_primary_url f) = Ok resp →
   get_exchange_rate E f t w
   = (Ok v, World (sent w ++ [latest_primary_url f]) (reads w) (shown w)))
  ∧ (∀ rates dates i day,
        minus_days (clock E (reads w)) i = Ok day →
        http_get E (sent w) (historical_url (strftime E day) f) = Ok resp →
        historical_body E f t (rates, dates) i w
        = (Ok (rates ++ [v], dates ++ [strftime E day]),
           World (sent w ++ [historical_url (strftime E day) f])
                 (S (reads w)) (shown w))).
Proof.
  intros Hs Hj Hrow Hv. split.
  - intros Hget. unfold get_exchange_rate. io_run.
    rewrite Hget, bool_decide_eq_false_2 by (by intros []).
    by rewrite Hj, Hrow, Hv.
  - intros rates dates i day Hday Hget. unfold historical_body. io_run.
    rewrite Hday, Hget, bool_decide_eq_false_2 by (by intros []).
    rewrite bool_decide_eq_true_2 by done.
    by rewrite Hj, Hrow, Hv.
Qed.

(** C8, as amended. The fetchers pass the value of the body through
    without looking at it, so the rates are positive when the source
    serves nothing but positive numbers for the pair: then
    [get_exchange_rate] returns [None] or a positive number, and every
    rate in the list of [get_historical_rates] is positive. *)
Theorem rates_positive_when_served_positive f t :
  (∀ v, served E f t v → positive_rate v = true) →
  (∀ w v w',
      get_exchange_rate E f t w = (Ok v, w') →
      v = PNone ∨ positive_rate v = true)
  ∧ (∀ days w dates rates w',
        get_historical_rates E f t days w = (Ok (dates, rates), w') →
        Forall (λ v, positive_rate v = true) rates).
Proof.
  intros Hpos. split.
  - intros w v w' [->|Hv]%get_exchange_rate_served; auto.
  - intros days w dates rates w' Hget%historical_rates_served.
    eapply Forall_impl; [done|]. auto.
Qed.

End FetcherClaims.

(** ** The fetchers on concrete sources *)

Example healthy_two_days :
  get_historical_rates healthy_source "USD" "EUR" 2 initial_world
  = (Ok (["2026-11-01"; "2026-11-02"], [PFloat lit_0_9; PFloat lit_0_9]),
     World ["https://cdn.jsdelivr.net/npm/@fawazahmed0/currency-api@2026-11-01/v1/currencies/usd.json";
            "https://cdn.jsdelivr.net/npm/@fawazahmed0/currency-api@2026-11-02/v1/currencies/usd.json"]
           2 []).
Proof. by vm_compute. Qed.

(** C2, at the failing input: the primary answers 404 and the mirror 503,
    both fetch failures, the mirror's body being well formed.
    [get_exchange_rate] reads the body of the 503 answer without checking
    its status and returns 0.9 where the claim has it return nothing; the
    loop of [get_historical_rates], which does check the status, skips the
    day on the same source. *)
Theorem fallback_status_unchecked :
  fetch_failure "USD" "EUR"
    (http_get failing_mirror [] (latest_primary_url "USD"))
  ∧ fetch_failure "USD" "EUR"
      (http_get failing_mirror [latest_primary_url "USD"]
         (latest_fallback_url "USD"))
  ∧ get_exchange_rate failing_mirror "USD" "EUR" initial_world
    = (Ok (PFloat lit_0_9),
       World [latest_primary_url "USD"; latest_fallback_url "USD"] 0 [])
  ∧ get_historical_rates failing_mirror "USD" "EUR" 1 initial_world
    = (Ok ([], []),
       World [historical_url "2026-11-02" "USD";
              historical_fallback_url "2026-11-02" "USD"] 1 []).
Proof.
  split_and!; [by left|by left|by vm_compute..].
Qed.

(** C8, the claim as written fails: a source that answers 200 with -1.5 for
    the pair has that number returned by [get_exchange_rate] and appended by
    [get_historical_rates]. *)
Lemma negative_rate_accepted :
  get_exchange_rate negative_source "USD" "EUR" initial_world
  = (Ok (PFloat lit_minus_1_5), World [latest_primary_url "USD"] 0 [])
  ∧ get_historical_rates negative_source "USD" "EUR" 1 initial_world
    = (Ok (["2026-11-02"], [PFloat lit_minus_1_5]),
       World [historical_url "2026-11-02" "USD"] 1 [])
  ∧ positive_rate (PFloat lit_minus_1_5) = false.
Proof. split_and!; by vm_compute. Qed.

(** The healthy source serves 0.9 and nothing else for the pair. *)
Lemma healthy_source_served v :
  served healthy_source "USD" "EUR" v → positive_rate v = true.
Proof.
  intros (earlier & url & resp & data & row & Hget & Hj & Hrow & Hv).
  cbn in Hget. injection Hget as <-. cbn in Hj. injection Hj as <-.
  vm_compute in Hrow. injection Hrow as <-.
  vm_compute in Hv. by injection Hv as <-.
Qed.

(** C4, the claim as written fails: on the three-point series the second
    and third entries of the column are not the doubles 10.0 and -1.0, and
    the overall change is not -1.0. *)
Lemma three_point_series_not_round :
  ∃ c x1 x2,
    create_currency_chart iso_dates three_dates three_rates = Ok c
    ∧ percent_change c = [Float64.zero; x1; x2]
    ∧ Float64.eqb x1 (Float64.of_Z 10) = false
    ∧ Float64.eqb x2 (Float64.of_Z (-1)) = false
    ∧ Float64.eqb (overall_change c) (Float64.of_Z (-1)) = false.
Proof.
  do 3 eexists. split; [by vm_compute|].
  cbn [percent_change overall_change]. split; [reflexivity|].
  by vm_compute.
Qed.

(** ** The URLs *)

Lemma split_slash_app a b :
  no_slash a = true →
  split_slash (a +:+ b) = ((a +:+ (split_slash b).1), (split_slash b).2).
Proof.
  induction a as [|c a IH]; intros Ha.
  - change ("" +:+ b) with b. by destruct (split_slash b).
  - change (String c a +:+ b) with (String c (a +:+ b)).
    cbn [no_slash split_slash] in *.
    destruct (Ascii.eqb c "/"); [done|].
    by rewrite (IH Ha).
Qed.

(** C9, the claim as written fails: primary and fallback URL differ in the
    path as well as in the host, for the latest rate and for a day. *)
Lemma fallback_url_differs_in_path :
  ¬ differ_only_in_host (latest_primary_url "USD") (latest_fallback_url "USD")
  ∧ ¬ differ_only_in_host (historical_url "2026-11-02" "USD")
        (historical_fallback_url "2026-11-02" "USD").
Proof.
  split; intros (h1 & h2 & p & H1 & H2 & _);
    vm_compute in H1, H2; congruence.
Qed.

(** C9, as amended. Primary and fallback URL share the scheme and the end
    of the path, [/v1/currencies/{base}.json] with the base in lower case.
    The primary is on the host [cdn.jsdelivr.net] and carries the package
    name and the version or date in front of that path; the fallback has an
    empty front and carries the version or date in its host,
    [{version-or-date}.currency-api.pages.dev]. *)
Theorem fallback_url_structure f date :
  no_slash date = true →
  url_host_path (latest_primary_url f)
  = Some ("cdn.jsdelivr.net",
          "/npm/@fawazahmed0/currency-api@latest" +:+ currencies_path f)
  ∧ url_host_path (latest_fallback_url f)
    = Some ("latest.currency-api.pages.dev", currencies_path f)
  ∧ url_host_path (historical_url date f)
    = Some ("cdn.jsdelivr.net",
            "/npm/@fawazahmed0/currency-api@" +:+ date +:+ currencies_path f)
  ∧ url_host_path (historical_fallback_url date f)
    = Some (date +:+ ".currency-api.pages.dev", currencies_path f).
Proof.
  intros Hdate. split_and!; [reflexivity..|].
  change (url_host_path (historical_fallback_url date f))
    with (Some (split_slash
                  (date +:+ ".currency-api.pages.dev/v1/currencies/"
                        +:+ lower f +:+ ".json"))).
  by rewrite split_slash_app.
Qed.

(** ** The theorems at concrete inputs *)

Lemma fallback_url_structure_witness :
  no_slash (iso_date (a_tuesday - 1)) = true
  ∧ url_host_path
      (historical_fallback_url (iso_date (a_tuesday - 1)) "USD")
    = Some ("2026-11-02.currency-api.pages.dev", "/v1/currencies/usd.json").
Proof.
  split; [reflexivity|].
  apply (fallback_url_structure "USD" (iso_date (a_tuesday - 1)) eq_refl).
Defined.

Lemma window_series_witness :
  ∃ log w' new,
    attempts healthy_source "USD" "EUR" (range_down 2) initial_world
    = (Ok log, w')
    ∧ log.*1 = seqZ (a_tuesday - 2) 2
    ∧ length log = Z.to_nat 2
    ∧ get_historical_rates healthy_source "USD" "EUR" 2 initial_world
      = (Ok (strftime healthy_source <$> (present log).*1, (present log).*2), w')
    ∧ sent w' = sent initial_world ++ new
    ∧ (Z.to_nat 2 ≤ length new ≤ 2 * Z.to_nat 2)%nat
    ∧ (present log).*1 `sublist_of` seqZ (a_tuesday - 2) 2
    ∧ StronglySorted Z.lt (present log).*1
    ∧ NoDup (present log).*1
    ∧ (length (present log) ≤ Z.to_nat 2)%nat.
Proof.
  apply (window_series healthy_source "USD" "EUR" 2 a_tuesday initial_world).
  - lia.
  - unfold MINORDINAL, a_tuesday. lia.
  - unfold MAXORDINAL, a_tuesday. lia.
  - reflexivity.
Defined.

Lemma percent_change_witness :
  ∃ c lst,
    create_currency_chart iso_dates three_dates three_rates = Ok c
    ∧ last three_rates = Some lst
    ∧ length (percent_change c) = length three_rates
    ∧ (∀ i r, three_rates !! i = Some r →
              percent_change c !! i
              = Some (change_pct (Float64.decimal 10 10) r))
    ∧ overall_change c = change_pct (Float64.decimal 10 10) lst.
Proof.
  exact (proj1 percent_change_relative_to_first iso_dates three_dates
           [739920; 739921; 739922] three_rates
           (Float64.decimal 10 10) eq_refl eq_refl eq_refl).
Defined.

Lemma primary_value_witness :
  get_exchange_rate healthy_source "USD" "EUR" initial_world
  = (Ok (PFloat lit_0_9), World [latest_primary_url "USD"] 0 []).
Proof.
  apply (proj1 (primary_value_passed_through healthy_source "USD" "EUR"
                  initial_world
                  (Response 200 (Ok (usd_eur_body (PFloat lit_0_9))))
                  (usd_eur_body (PFloat lit_0_9))
                  (PDict {[ "eur" := PFloat lit_0_9 ]})
                  (PFloat lit_0_9)
                  eq_refl eq_refl eq_refl eq_refl)).
  reflexivity.
Defined.

Lemma direction_witness :
  ∃ c first lst,
    create_currency_chart iso_dates ["2026-11-01"; "2026-11-02"] rising_rates
    = Ok c
    ∧ head rising_rates = Some first
    ∧ last rising_rates = Some lst
    ∧ overall_change c = change_pct first lst
    ∧ (arrow c = Up ↔ Float64.gt (change_pct first lst) Float64.zero = true)
    ∧ (arrow c = Down
       ↔ Float64.gt (change_pct first lst) Float64.zero = false)
    ∧ (Float64.eqb (change_pct first lst) Float64.zero = true →
       arrow c = Down).
Proof.
  apply (proj1 direction_up_iff_positive iso_dates
           ["2026-11-01"; "2026-11-02"] [739921; 739922] rising_rates
           eq_refl eq_refl).
  discriminate.
Defined.

Lemma single_point_witness :
  Float64.positive_finite lit_2_5 = true
  ∧ create_currency_chart iso_dates ["2026-11-02"] [lit_2_5]
    = Ok (Chart [Float64.zero]
            (Float64.mul lit_2_5 Float64.lit_0_998)
            (Float64.mul lit_2_5 Float64.lit_1_002)
            Float64.zero Down).
Proof.
  split; [reflexivity|].
  apply (proj1 single_point_series iso_dates "2026-11-02" [739922] lit_2_5);
    reflexivity.
Defined.

Lemma rates_positive_witness :
  (∀ w v w',
      get_exchange_rate healthy_source "USD" "EUR" w = (Ok v, w') →
      v = PNone ∨ positive_rate v = true)
  ∧ (∀ days w dates rates w',
        get_historical_rates healthy_source "USD" "EUR" days w
        = (Ok (dates, rates), w') →
        Forall (λ v, positive_rate v = true) rates).
Proof.
  apply (rates_positive_when_served_positive healthy_source "USD" "EUR").
  exact healthy_source_served.
Defined.


(** * Further properties of the fetchers *)

Section FetcherBehaviour.

Context (E : environment).
Implicit Types (w : world) (v : pyval).

(** X1. [get_exchange_rate] never raises and never reads the clock. It sends the
    primary request, and after it the fallback request exactly when the
    primary answered with a status other than 200; a primary request that
    raised is not followed by the fallback. *)
Theorem get_exchange_rate_requests f t w :
  ∃ v w',
    get_exchange_rate E f t w = (Ok v, w')
    ∧ reads w' = reads w
    ∧ sent w' = sent w ++ latest_primary_url f ::
        match http_get E (sent w) (latest_primary_url f) with
        | Ok r => if bool_decide (status_code r ≠ 200)
                  then [latest_fallback_url f] else []
        | Raise _ => []
        end.
Proof.
  unfold get_exchange_rate. io_run.
  destruct (http_get E (sent w) _) as [r1|e1]; [|eauto 10].
  case_bool_decide as Hs1.
  - cbn [sent]. destruct (http_get E (sent w ++ _) _) as [r2|e2];
      [destruct (json r2) as [d|]; [destruct (getitem d _) as [row|];
        [destruct (getitem row _)|]|]|];
      do 2 eexists; (split; [reflexivity|]); cbn;
      by rewrite <- ?app_assoc.
  - destruct (json r1) as [d|]; [destruct (getitem d _) as [row|];
      [destruct (getitem row _)|]|];
      do 2 eexists; (split; [reflexivity|]); by cbn.
Qed.

(** X2. Either [get_exchange_rate] shows nothing and returns a value found in a
    body of the source, or it shows the one error "Failed to fetch exchange
    rate" with the exception and returns [None]. *)
Theorem get_exchange_rate_value_or_error f t w :
  ∃ v w',
    get_exchange_rate E f t w = (Ok v, w')
    ∧ ((shown w' = shown w ∧ served E f t v)
       ∨ (∃ e, shown w' = shown w
                 ++ [StError "Failed to fetch exchange rate: " (Some e)]
               ∧ v = PNone)).
Proof.
  unfold get_exchange_rate, served. io_run.
  destruct (http_get E (sent w) _) as [r1|e1] eqn:H1; [|eauto 10].
  case_bool_decide as Hs1.
  - cbn [sent]. destruct (http_get E (sent w ++ _) _) as [r2|e2] eqn:H2;
      [|eauto 10].
    destruct (json r2) as [d|] eqn:Hj; [|eauto 10].
    destruct (getitem d _) as [row|] eqn:Hrow; [|eauto 10].
    destruct (getitem row _) as [x|] eqn:Hx; [|eauto 10].
    do 2 eexists. split; [reflexivity|]. left. cbn. eauto 10.
  - destruct (json r1) as [d|] eqn:Hj; [|eauto 10].
    destruct (getitem d _) as [row|] eqn:Hrow; [|eauto 10].
    destruct (getitem row _) as [x|] eqn:Hx; [|eauto 10].
    do 2 eexists. split; [reflexivity|]. left. cbn. eauto 10.
Qed.

(** X3. When the primary answers with a status other than 200,
    [get_exchange_rate] returns what the body of the fallback answer holds
    for the pair, whatever the status of that answer, after the two
    requests and without showing anything. *)
Theorem latest_fallback_value f t w r1 r2 data row v :
  http_get E (sent w) (latest_primary_url f) = Ok r1 →
  status_code r1 ≠ 200 →
  http_get E (sent w ++ [latest_primary_url f]) (latest_fallback_url f)
  = Ok r2 →
  json r2 = Ok data →
  getitem data (lower f) = Ok row →
  getitem row (lower t) = Ok v →
  get_exchange_rate E f t w
  = (Ok v,
     World (sent w ++ [latest_primary_url f; latest_fallback_url f])
           (reads w) (shown w)).
Proof.
  intros H1 Hs1 H2 Hj Hrow Hv. unfold get_exchange_rate. io_run.
  rewrite H1, bool_decide_eq_true_2 by done. cbn [sent].
  rewrite H2, Hj, Hrow, Hv. cbn. by rewrite <- app_assoc.
Qed.

(** X4. In the loop of [get_historical_rates] the fallback answer counts only
    with status 200: after a primary answer with another status, a fallback
    answer with status 200 and a value for the pair has the value and the
    date appended, and a fallback answer with any other status leaves the
    lists as they were, whatever its body. *)
Theorem historical_fallback_checked f t w rates dates i day r1 r2 :
  minus_days (clock E (reads w)) i = Ok day →
  http_get E (sent w) (historical_url (strftime E day) f) = Ok r1 →
  status_code r1 ≠ 200 →
  http_get E (sent w ++ [historical_url (strftime E day) f])
    (historical_fallback_url (strftime E day) f) = Ok r2 →
  let w' := World (sent w ++ [historical_url (strftime E day) f;
                              historical_fallback_url (strftime E day) f])
                  (S (reads w)) (shown w) in
  (status_code r2 ≠ 200 →
   historical_body E f t (rates, dates) i w = (Ok (rates, dates), w'))
  ∧ (∀ data row v,
        status_code r2 = 200 →
        json r2 = Ok data →
        getitem data (lower f) = Ok row →
        getitem row (lower t) = Ok v →
        historical_body E f t (rates, dates) i w
        = (Ok (rates ++ [v], dates ++ [strftime E day]), w')).
Proof.
  intros Hday H1 Hs1 H2 w'. subst w'. split.
  - intros Hs2. unfold historical_body. io_run.
    rewrite Hday, H1, bool_decide_eq_true_2 by done. cbn [sent].
    rewrite H2, bool_decide_eq_false_2 by done. cbn.
    by rewrite <- app_assoc.
  - intros data row v Hs2 Hj Hrow Hv. unfold historical_body. io_run.
    rewrite Hday, H1, bool_decide_eq_true_2 by done. cbn [sent].
    rewrite H2, bool_decide_eq_true_2 by done.
    rewrite Hj, Hrow, Hv. cbn. by rewrite <- app_assoc.
Qed.

Lemma historical_body_primary_raises f t w e rates dates i day :
  minus_days (clock E (reads w)) i = Ok day →
  http_get E (sent w) (historical_url (strftime E day) f) = Raise e →
  historical_body E f t (rates, dates) i w
  = (Ok (rates, dates),
     World (sent w ++ [historical_url (strftime E day) f])
           (S (reads w)) (shown w)).
Proof.
  intros Hday H1. unfold historical_body. io_run. by rewrite Hday, H1.
Qed.

(** X5. A primary request that raises ends the fetch after that one request:
    [get_exchange_rate] shows the exception and returns [None], and the
    loop of [get_historical_rates] moves on with its lists unchanged; the
    fallback is not asked. *)
Theorem primary_exception_no_fallback f t w e :
  (http_get E (sent w) (latest_primary_url f) = Raise e →
   get_exchange_rate E f t w
   = (Ok PNone,
      World (sent w ++ [latest_primary_url f]) (reads w)
            (shown w ++ [StError "Failed to fetch exchange rate: " (Some e)])))
  ∧ (∀ rates dates i day,
        minus_days (clock E (reads w)) i = Ok day →
        http_get E (sent w) (historical_url (strftime E day) f) = Raise e →
        historical_body E f t (rates, dates) i w
        = (Ok (rates, dates),
           World (sent w ++ [historical_url (strftime E day) f])
                 (S (reads w)) (shown w))).
Proof.
  split.
  - intros H1. unfold get_exchange_rate. io_run. by rewrite H1.
  - intros rates dates i day Hday H1.
    by apply (historical_body_primary_raises f t w e).
Qed.

(** X6. With [days <= 0] the loop has nothing to do: [get_historical_rates]
    returns two empty lists and leaves network, clock and UI untouched. *)
Theorem no_days_no_requests f t days w :
  days ≤ 0 →
  get_historical_rates E f t days w = (Ok ([], []), w).
Proof.
  intros Hdays. unfold get_historical_rates, range_down.
  by rewrite seqZ_nil.
Qed.

End FetcherBehaviour.

Lemma sorted_by_lookup (l : list Z) :
  (∀ j j' x y, (j < j')%nat → l !! j = Some x → l !! j' = Some y → x < y) →
  StronglySorted Z.lt l.
Proof.
  induction l as [|a l IH]; intros Hl; [constructor|].
  apply StronglySorted_cons. split.
  - apply Forall_lookup_2. intros j y Hy.
    by apply (Hl 0%nat (S j) a y ltac:(lia)).
  - apply IH. intros j j' x y Hjj Hx Hy.
    by apply (Hl (S j) (S j') x y ltac:(lia)).
Qed.

Section LoopBehaviour.

Context (E : environment).
Implicit Types (w : world) (v : pyval) (log : list (Z * option pyval)).

Lemma minus_days_Ok today i day :
  minus_days today i = Ok day →
  day = today - i ∧ MINORDINAL ≤ day ≤ MAXORDINAL.
Proof.
  unfold minus_days. repeat case_match; try done.
  intros [= <-]. lia.
Qed.

(** The days of the attempts, read off the clock: the [j]-th attempt asks
    for the day the clock shows at its [j]-th reading, minus its index. *)
Lemma attempts_effect f t ixs w log w' :
  attempts E f t ixs w = (Ok log, w') →
  log.*1 = imap (λ j i, clock E (reads w + j) - i) ixs
  ∧ reads w' = (reads w + length ixs)%nat
  ∧ shown w' = shown w.
Proof.
  revert w log. induction ixs as [|i ixs IH]; intros w log.
  - cbn. intros [= <- <-]. by rewrite Nat.add_0_r.
  - cbn [attempts]. unfold mbind at 1, io_bind at 1.
    pose proof (attempt_cases E f t i w) as Ha.
    destruct (attempt E f t i w) as [[[day o]|e] w1]; [|done].
    destruct Ha as ([-> _]%minus_days_Ok & _ & Hr & Hs & _).
    unfold mbind, io_bind, mret, io_ret.
    destruct (attempts E f t ixs w1) as [[log1|e] w2] eqn:Hlog; [|done].
    intros [= <- <-]. destruct (IH _ _ Hlog) as (Hdays & Hr2 & Hs2).
    split_and!.
    + cbn. rewrite Nat.add_0_r. f_equal. rewrite Hdays, Hr.
      apply imap_ext. intros j x _. cbn. do 2 f_equal. lia.
    + rewrite Hr2, Hr. cbn. lia.
    + by rewrite Hs2.
Qed.

Lemma attempt_shown f t i w :
  shown (attempt E f t i w).2 = shown w.
Proof.
  unfold attempt. unfold mbind at 1, io_bind at 1, datetime_now at 1.
  unfold mbind at 1, io_bind at 1, lift at 1.
  destruct (minus_days (clock E (reads w)) i) as [day|e]; [|done].
  set (w0 := World (sent w) (S (reads w)) (shown w)).
  destruct (fetch_day_total E (strftime E day) f t w0)
    as (o & w1 & Hf & _ & Hs & _).
  unfold mbind, io_bind, mret, io_ret. by rewrite Hf.
Qed.

Lemma attempts_raise_effect f t ixs w e w' :
  attempts E f t ixs w = (Raise e, w') → shown w' = shown w.
Proof.
  revert w. induction ixs as [|i ixs IH]; intros w; [done|].
  cbn [attempts]. unfold mbind at 1, io_bind at 1.
  pose proof (attempt_shown f t i w) as Hs.
  destruct (attempt E f t i w) as [[a|e1] w1]; [|by intros [= _ <-]].
  unfold mbind, io_bind, mret, io_ret.
  destruct (attempts E f t ixs w1) as [[log1|e1] w2] eqn:Hlog; [done|].
  intros [= -> ->]. by rewrite (IH _ Hlog).
Qed.

Lemma historical_effect f t days w :
  match get_historical_rates E f t days w with
  | (Ok _, w') =>
      shown w' = shown w
      ∧ reads w' = (reads w + Z.to_nat days)%nat
      ∧ ∃ new, sent w' = sent w ++ new
               ∧ (Z.to_nat days ≤ length new ≤ 2 * Z.to_nat days)%nat
  | (Raise _, w') => shown w' = shown w
  end.
Proof.
  rewrite get_historical_rates_attempts.
  pose proof (attempts_cases E f t (range_down days) w) as Hcases.
  unfold mbind, io_bind, mret, io_ret.
  destruct (attempts E f t (range_down days) w) as [[log|e] w'] eqn:Hlog.
  - destruct (attempts_effect _ _ _ _ _ _ Hlog) as (_ & Hr & Hs).
    destruct Hcases as (_ & _ & new & Hsent & Hnew).
    assert (length (range_down days) = Z.to_nat days) as Hlen.
    { unfold range_down. by rewrite length_fmap, length_seqZ. }
    rewrite Hlen in *. eauto.
  - by eapply attempts_raise_effect.
Qed.

(** X7. [get_historical_rates] is silent: whatever the source does, it shows
    nothing. When it returns it has read the clock once per day of the
    window and sent at least one and at most two requests per day. *)
Theorem historical_fetch_silent f t days w :
  match get_historical_rates E f t days w with
  | (Ok _, w') =>
      shown w' = shown w
      ∧ reads w' = (reads w + Z.to_nat days)%nat
      ∧ ∃ new, sent w' = sent w ++ new
               ∧ (Z.to_nat days ≤ length new ≤ 2 * Z.to_nat days)%nat
  | (Raise _, w') => shown w' = shown w
  end.
Proof.
  rewrite get_historical_rates_attempts.
  pose proof (attempts_cases E f t (range_down days) w) as Hcases.
  unfold mbind, io_bind, mret, io_ret.
  destruct (attempts E f t (range_down days) w) as [[log|e] w'] eqn:Hlog.
  - destruct (attempts_effect _ _ _ _ _ _ Hlog) as (_ & Hr & Hs).
    destruct Hcases as (_ & _ & new & Hsent & Hnew).
    assert (length (range_down days) = Z.to_nat days) as Hlen.
    { unfold range_down. by rewrite length_fmap, length_seqZ. }
    rewrite Hlen in *. eauto.
  - by eapply attempts_raise_effect.
Qed.

(** X8. With a clock that never goes back, even one that passes midnight
    during the call, the dates of the returned series are strictly
    increasing days. *)
Theorem dates_increase_under_moving_clock f t days w :
  clock_monotone E →
  match get_historical_rates E f t days w with
  | (Ok (dates, _), _) =>
      ∃ ordinals, dates = strftime E <$> ordinals
                  ∧ StronglySorted Z.lt ordinals
  | (Raise _, _) => True
  end.
Proof.
  intros Hmono. rewrite get_historical_rates_attempts.
  unfold mbind, io_bind, mret, io_ret.
  destruct (attempts E f t (range_down days) w) as [[log|e] w'] eqn:Hlog;
    [|done].
  exists (present log).*1. split; [done|].
  eapply sublist_sorted; [apply present_sublist|].
  destruct (attempts_effect _ _ _ _ _ _ Hlog) as (-> & _ & _).
  clear Hlog. apply sorted_by_lookup. intros j j' x y Hjj Hx Hy.
  unfold range_down in Hx, Hy.
  rewrite list_lookup_imap, list_lookup_fmap in Hx, Hy.
  destruct (seqZ 0 days !! j) as [k|] eqn:Hk; [|done].
  destruct (seqZ 0 days !! j') as [k'|] eqn:Hk'; [|done].
  apply lookup_seqZ in Hk as [-> _]. apply lookup_seqZ in Hk' as [-> _].
  cbn in Hx, Hy. injection Hx as <-. injection Hy as <-.
  pose proof (Hmono (reads w + j)%nat (reads w + j')%nat ltac:(lia)). lia.
Qed.

End LoopBehaviour.

Section Repeatability.

Context (E : environment).
Implicit Types (w : world) (v : pyval).

Lemma fetch_day_blind date f t w1 w2 :
  history_blind E →
  (fetch_day E date f t w1).1 = (fetch_day E date f t w2).1.
Proof.
  intros Hb. unfold fetch_day. io_run.
  rewrite (Hb (sent w1) (sent w2)).
  destruct (http_get E (sent w2) _) as [r1|e1]; [|done].
  case_bool_decide as Hs1.
  - cbn [sent]. rewrite (Hb (sent w1 ++ _) (sent w2 ++ [historical_url date f])).
    destruct (http_get E (sent w2 ++ _) _) as [r2|e2]; [|done].
    case_bool_decide; [|done].
    destruct (json r2) as [d|]; [|done].
    destruct (getitem d _) as [row|]; [|done].
    by destruct (getitem row _).
  - case_bool_decide; [|done].
    destruct (json r1) as [d|]; [|done].
    destruct (getitem d _) as [row|]; [|done].
    by destruct (getitem row _).
Qed.

Lemma attempts_blind f t today ixs w1 w2 :
  history_blind E →
  (∀ k, clock E k = today) →
  (attempts E f t ixs w1).1 = (attempts E f t ixs w2).1.
Proof.
  intros Hb Hclock. revert w1 w2.
  induction ixs as [|i ixs IH]; intros w1 w2; [done|].
  cbn [attempts]. unfold mbind at 1 3, io_bind at 1 3.
  assert ((attempt E f t i w1).1 = (attempt E f t i w2).1) as Ha.
  { unfold attempt. unfold mbind at 1 4, io_bind at 1 4, datetime_now.
    unfold mbind at 1 3, io_bind at 1 3, lift. rewrite !Hclock.
    destruct (minus_days today i) as [day|]; [|done].
    unfold mbind, io_bind, mret, io_ret.
    pose proof (fetch_day_blind (strftime E day) f t
                  (World (sent w1) (S (reads w1)) (shown w1))
                  (World (sent w2) (S (reads w2)) (shown w2)) Hb) as Hf.
    destruct (fetch_day E _ f t (World (sent w1) _ _)) as [[o1|e1] u1],
             (fetch_day E _ f t (World (sent w2) _ _)) as [[o2|e2] u2];
      cbn in Hf |- *; congruence. }
  destruct (attempt E f t i w1) as [[a1|e1] u1],
           (attempt E f t i w2) as [[a2|e2] u2]; cbn in Ha;
    try discriminate; [|by injection Ha as <-].
  injection Ha as <-. specialize (IH u1 u2).
  unfold mbind, io_bind, mret, io_ret.
  destruct (attempts E f t ixs u1) as [[l1|x1] v1],
           (attempts E f t ixs u2) as [[l2|x2] v2]; cbn in IH |- *; congruence.
Qed.

(** X9. Against a source that answers a URL the same way whatever was asked
    before, the fetchers give the same result from every state of the
    world: [get_exchange_rate] always, [get_historical_rates] as long as the
    clock stays on one day. Calling twice gives the same series. *)
Theorem fetchers_repeatable f t today days w1 w2 :
  history_blind E →
  (∀ k, clock E k = today) →
  (get_exchange_rate E f t w1).1 = (get_exchange_rate E f t w2).1
  ∧ (get_historical_rates E f t days w1).1
    = (get_historical_rates E f t days w2).1.
Proof.
  intros Hb Hclock. split.
  - unfold get_exchange_rate. io_run.
    rewrite (Hb (sent w1) (sent w2)).
    destruct (http_get E (sent w2) _) as [r1|e1]; [|done].
    case_bool_decide as Hs1.
    + cbn [sent].
      rewrite (Hb (sent w1 ++ _) (sent w2 ++ [latest_primary_url f])).
      destruct (http_get E (sent w2 ++ _) _) as [r2|e2]; [|done].
      destruct (json r2) as [d|]; [|done].
      destruct (getitem d _) as [row|]; [|done].
      by destruct (getitem row _).
    + destruct (json r1) as [d|]; [|done].
      destruct (getitem d _) as [row|]; [|done].
      by destruct (getitem row _).
  - rewrite !get_historical_rates_attempts.
    pose proof (attempts_blind f t today (range_down days) w1 w2 Hb Hclock)
      as Hlog.
    unfold mbind, io_bind, mret, io_ret.
    destruct (attempts E f t (range_down days) w1) as [[l1|x1] v1],
             (attempts E f t (range_down days) w2) as [[l2|x2] v2];
      cbn in Hlog |- *; congruence.
Qed.

(** X10. When no request gets through, every day of a window inside the calendar
    costs exactly one request, the fallback never being tried, and the
    series comes back empty. *)
Theorem unreachable_source_empty_series f t N today w :
  (∀ earlier url, ∃ e, http_get E earlier url = Raise e) →
  (∀ k, clock E k = today) →
  0 ≤ N → MINORDINAL ≤ today - N → today ≤ MAXORDINAL →
  ∃ new,
    get_historical_rates E f t N w
    = (Ok ([], []),
       World (sent w ++ new) (reads w + Z.to_nat N) (shown w))
    ∧ new = (λ day, historical_url (strftime E day) f)
              <$> seqZ (today - N) N.
Proof.
  intros Hdown Hclock HN Hmin Hmax.
  assert (∀ ixs w rates dates,
            Forall (λ i, 1 ≤ i ≤ N) ixs →
            for_each (historical_body E f t) ixs (rates, dates) w
            = (Ok (rates, dates),
               World (sent w ++ ((λ i, historical_url (strftime E (today - i)) f)
                                   <$> ixs))
                     (reads w + length ixs) (shown w))) as Hloop.
  { induction ixs as [|i ixs IH]; intros w0 rates dates Hixs.
    - cbn. unfold mret, io_ret. destruct w0.
      by rewrite app_nil_r, Nat.add_0_r.
    - apply Forall_cons in Hixs as [Hi Hixs].
      cbn [for_each]. unfold mbind at 1, io_bind at 1.
      assert (minus_days (clock E (reads w0)) i = Ok (today - i)) as Hday.
      { rewrite Hclock. unfold minus_days, MINORDINAL, MAXORDINAL, MAXDELTA in *.
        rewrite !andb_true_intro; [done|split; lia|split; lia]. }
      destruct (Hdown (sent w0) (historical_url (strftime E (today - i)) f))
        as [e He].
      rewrite (historical_body_primary_raises E f t w0 e
                 rates dates i (today - i) Hday He).
      rewrite (IH _ _ _ Hixs). cbn. f_equal. f_equal; [|lia].
      by rewrite <- app_assoc. }
  eexists. split; [|reflexivity].
  unfold get_historical_rates. unfold mbind, io_bind.
  rewrite (Hloop _ _ _ _ (range_down_bounds N)). cbn.
  unfold mret, io_ret. do 3 f_equal.
  - rewrite <- range_down_days. by rewrite <- list_fmap_compose.
  - unfold range_down. by rewrite length_fmap, length_seqZ.
Qed.

End Repeatability.

Lemma ascii_lower_idemp c : ascii_lower (ascii_lower c) = ascii_lower c.
Proof. by destruct c as [[] [] [] [] [] [] [] []]. Qed.

Lemma lower_idemp s : lower (lower s) = lower s.
Proof.
  induction s as [|c s IH]; [done|]. cbn. by rewrite ascii_lower_idemp, IH.
Qed.

(** X11. The fetchers do not tell upper case from lower case in the currency
    codes: two spellings with the same lower-case form send the same
    requests and give the same result. *)
Theorem currency_codes_case_insensitive E f f' t t' days w :
  lower f = lower f' →
  lower t = lower t' →
  get_exchange_rate E f t w = get_exchange_rate E f' t' w
  ∧ get_historical_rates E f t days w = get_historical_rates E f' t' days w.
Proof.
  intros Hf Ht. split.
  - unfold get_exchange_rate, latest_primary_url, latest_fallback_url.
    by rewrite Hf, Ht.
  - unfold get_historical_rates, historical_body, historical_url,
      historical_fallback_url.
    by rewrite Hf, Ht.
Qed.

(** ** The further properties at concrete inputs *)

Lemma latest_fallback_value_witness :
  get_exchange_rate failing_mirror "USD" "EUR" initial_world
  = (Ok (PFloat lit_0_9),
     World ([] ++ [latest_primary_url "USD"; latest_fallback_url "USD"]) 0 []).
Proof.
  apply (latest_fallback_value failing_mirror "USD" "EUR" initial_world
           (Response 404 (Raise JSONDecodeError))
           (Response 503 (Ok (usd_eur_body (PFloat lit_0_9))))
           (usd_eur_body (PFloat lit_0_9))
           (PDict {[ "eur" := PFloat lit_0_9 ]})
           (PFloat lit_0_9));
    done.
Defined.

Lemma historical_fallback_witness :
  historical_body cdn_down "USD" "EUR" ([], []) 1 initial_world
  = (Ok ([PFloat lit_0_9], ["2026-11-02"]),
     World [historical_url "2026-11-02" "USD";
            historical_fallback_url "2026-11-02" "USD"] 1 []).
Proof.
  apply (proj2 (historical_fallback_checked cdn_down "USD" "EUR" initial_world
                  [] [] 1 (a_tuesday - 1)
                  (Response 404 (Raise JSONDecodeError))
                  (Response 200 (Ok (usd_eur_body (PFloat lit_0_9))))
                  eq_refl eq_refl ltac:(done) eq_refl)
           (usd_eur_body (PFloat lit_0_9))
           (PDict {[ "eur" := PFloat lit_0_9 ]})
           (PFloat lit_0_9));
    done.
Defined.

Lemma primary_exception_witness :
  get_exchange_rate unreachable_source "USD" "EUR" initial_world
  = (Ok PNone,
     World [latest_primary_url "USD"] 0
       [StError "Failed to fetch exchange rate: " (Some ConnectionError)]).
Proof.
  apply (proj1 (primary_exception_no_fallback unreachable_source "USD" "EUR"
                  initial_world ConnectionError)).
  reflexivity.
Defined.

Lemma no_days_witness :
  get_historical_rates healthy_source "USD" "EUR" (-3) initial_world
  = (Ok ([], []), initial_world).
Proof. apply no_days_no_requests. lia. Defined.

Lemma midnight_source_monotone : clock_monotone midnight_source.
Proof. intros j k Hjk. cbn. lia. Qed.

Lemma moving_clock_witness :
  match get_historical_rates midnight_source "USD" "EUR" 3 initial_world with
  | (Ok (dates, _), _) =>
      ∃ ordinals, dates = strftime midnight_source <$> ordinals
                  ∧ StronglySorted Z.lt ordinals
  | (Raise _, _) => True
  end.
Proof.
  apply dates_increase_under_moving_clock. exact midnight_source_monotone.
Defined.

Example midnight_skips_days :
  (get_historical_rates midnight_source "USD" "EUR" 3 initial_world).1
  = Ok (["2026-10-31"; "2026-11-02"; "2026-11-04"],
        [PFloat lit_0_9; PFloat lit_0_9; PFloat lit_0_9]).
Proof. by vm_compute. Qed.

Lemma repeatable_witness :
  (get_exchange_rate healthy_source "USD" "EUR" initial_world).1
  = (get_exchange_rate healthy_source "USD" "EUR" (World ["x"] 7 [])).1
  ∧ (get_historical_rates healthy_source "USD" "EUR" 30 initial_world).1
    = (get_historical_rates healthy_source "USD" "EUR" 30 (World ["x"] 7 [])).1.
Proof.
  apply (fetchers_repeatable healthy_source "USD" "EUR" a_tuesday); done.
Defined.

Lemma unreachable_witness :
  ∃ new,
    get_historical_rates unreachable_source "USD" "EUR" 3 initial_world
    = (Ok ([], []), World ([] ++ new) (0 + Z.to_nat 3) [])
    ∧ new = (λ day, historical_url (iso_date day) "USD")
              <$> seqZ (a_tuesday - 3) 3.
Proof.
  apply (unreachable_source_empty_series unreachable_source "USD" "EUR" 3
           a_tuesday initial_world).
  - intros earlier url. by exists ConnectionError.
  - done.
  - lia.
  - unfold MINORDINAL, a_tuesday. lia.
  - unfold MAXORDINAL, a_tuesday. lia.
Defined.

Lemma case_insensitive_witness :
  get_exchange_rate healthy_source "USD" "EUR" initial_world
  = get_exchange_rate healthy_source "usd" "Eur" initial_world
  ∧ get_historical_rates healthy_source "USD" "EUR" 30 initial_world
    = get_historical_rates healthy_source "usd" "Eur" 30 initial_world.
Proof.
  by apply currency_codes_case_insensitive.
Defined.

(** * Further properties of the chart *)

Section ChartBehaviour.

Import Float64.
Context (P : pandas).



(** X14. A baseline of zero raises nothing: for dates that parse the chart
    is built, and every entry of its percent-change column is an infinity
    or a NaN. *)
Theorem zero_baseline_no_exception dates stamps s rates :
  to_datetime P dates = Some stamps →
  length dates = S (length rates) →
  ∃ c,
    create_currency_chart P dates (S754_zero s :: rates) = Ok c
    ∧ Forall (λ x, match x with
                   | S754_infinity _ | S754_nan => True
                   | _ => False
                   end) (percent_change c).
Proof.
  intros Hparse Hlen.
  destruct (create_currency_chart_ok P dates stamps (S754_zero s :: rates)
              (S754_zero s) Hparse Hlen eq_refl) as (lst & _ & Hc).
  eexists. split; [exact Hc|]. cbn [percent_change].
  apply Forall_fmap, Forall_forall. intros r _.
  unfold compose, change_pct. rewrite hundred_finite.
  by destruct r as [[]|[]| |[] m e], s.
Qed.

(** X15. The percent-change column starts at zero: for dates that parse and
    a finite non-zero first rate its first entry is a zero, and a series
    that ends on the rate it began with has an overall change of zero and
    is drawn as down. *)
Theorem chart_starts_at_zero dates stamps s m e rates :
  to_datetime P dates = Some stamps →
  length dates = S (length rates) →
  ∃ c,
    create_currency_chart P dates (S754_finite s m e :: rates) = Ok c
    ∧ head (percent_change c) = Some (S754_zero s)
    ∧ (last (S754_finite s m e :: rates) = Some (S754_finite s m e) →
       overall_change c = S754_zero s ∧ arrow c = Down).
Proof.
  intros Hparse Hlen.
  destruct (create_currency_chart_ok P dates stamps (S754_finite s m e :: rates)
              (S754_finite s m e) Hparse Hlen eq_refl) as (lst & Hlast & Hc).
  eexists. split; [exact Hc|]. cbn [percent_change overall_change arrow].
  split.
  - cbn. unfold change_pct. by rewrite change_from_self.
  - intros Hl. rewrite Hl in Hlast. injection Hlast as <-.
    unfold change_pct. rewrite change_from_self. by destruct s.
Qed.

End ChartBehaviour.

Example chart_refuses_labels :
  create_currency_chart iso_dates ["d0"; "d1"; "d2"] three_rates
  = Raise ValueError.
Proof. reflexivity. Qed.

Lemma zero_baseline_witness :
  ∃ c,
    create_currency_chart iso_dates three_dates
      [S754_zero false; Float64.decimal 11 10; S754_zero false] = Ok c
    ∧ Forall (λ x, match x with
                   | S754_infinity _ | S754_nan => True
                   | _ => False
                   end) (percent_change c).
Proof.
  by apply (zero_baseline_no_exception iso_dates three_dates
              [739920; 739921; 739922]).
Defined.

Lemma chart_starts_at_zero_witness :
  ∃ c,
    create_currency_chart iso_dates three_dates
      [S754_finite false 5 (-1); Float64.decimal 11 10;
       S754_finite false 5 (-1)] = Ok c
    ∧ head (percent_change c) = Some (S754_zero false)
    ∧ (last [S754_finite false 5 (-1); Float64.decimal 11 10;
             S754_finite false 5 (-1)] = Some (S754_finite false 5 (-1)) →
       overall_change c = S754_zero false ∧ arrow c = Down).
Proof.
  by apply (chart_starts_at_zero iso_dates three_dates
              [739920; 739921; 739922]).
Defined.


(** * [query_for_news] *)

Example news_fenced :
  query_for_news
    (toy_news [Ok (Some "Here you go: ``"); Ok (Some "`json [1] ``");
               Ok (Some "` bye")])
    "USD" "EUR" initial_world
  = (Ok (PList [PInt 1]), initial_world).
Proof. by vm_compute. Qed.

Section TextFacts.

Implicit Types (s pre post body pat : string) (c : ascii).
Local Arguments String.append !_ _ / : simpl nomatch.

Lemma append_assoc s1 s2 s3 : (s1 +:+ s2) +:+ s3 = s1 +:+ s2 +:+ s3.
Proof. induction s1 as [|c s1 IH]; [done|]. cbn. by rewrite IH. Qed.

Lemma find_lower_bound pat s : -1 ≤ find pat s.
Proof.
  induction s as [|c s IH]; cbn; destruct (startswith pat _); try lia.
  destruct (find pat s =? -1) eqn:Hi; lia.
Qed.

Lemma rfind_lower_bound pat s : -1 ≤ rfind pat s.
Proof.
  induction s as [|c s IH]; cbn.
  - destruct (startswith pat _); lia.
  - destruct (rfind pat s =? -1) eqn:Hi; [|lia].
    destruct (startswith pat _); lia.
Qed.

Lemma startswith_backtick c p s :
  Ascii.eqb c "`" = false → startswith (String "`" p) (String c s) = false.
Proof. intros Hc. cbn [startswith]. by rewrite Ascii.eqb_sym, Hc. Qed.

(** Text without a backtick holds no fence. *)
Lemma find_no_backtick p s :
  no_backtick s = true → find (String "`" p) s = -1.
Proof.
  induction s as [|c s IH]; [done|]. cbn [no_backtick find].
  intros [Hc Hs]%andb_prop. apply negb_true_iff in Hc.
  by rewrite startswith_backtick, IH.
Qed.

Lemma rfind_no_backtick p s :
  no_backtick s = true → rfind (String "`" p) s = -1.
Proof.
  induction s as [|c s IH]; [done|]. cbn [no_backtick rfind].
  intros [Hc Hs]%andb_prop. apply negb_true_iff in Hc.
  by rewrite startswith_backtick, IH.
Qed.

(** The first fence after text without a backtick is found where that text
    ends. *)
Lemma find_after_plain pre p rest :
  no_backtick pre = true →
  find (String "`" p) (pre +:+ String "`" p +:+ rest)
  = Z.of_nat (String.length pre).
Proof.
  induction pre as [|c pre IH].
  - intros _. change ("" +:+ String "`" p +:+ rest)
      with (String "`" (p +:+ rest)).
    assert (startswith (String "`" p) (String "`" (p +:+ rest)) = true) as Hp.
    { cbn [startswith]. rewrite Ascii.eqb_refl. cbn [andb].
      clear. induction p as [|a p IH]; [done|].
      cbn. by rewrite Ascii.eqb_refl. }
    cbn [find]. by rewrite Hp.
  - cbn [no_backtick]. intros [Hc Hpre]%andb_prop. apply negb_true_iff in Hc.
    change (String c pre +:+ String "`" p +:+ rest)
      with (String c (pre +:+ String "`" p +:+ rest)).
    cbn [find]. rewrite startswith_backtick, (IH Hpre) by done.
    cbn [String.length]. destruct (_ =? -1) eqn:Hi; lia.
Qed.

(** The last occurrence moves with the text put in front of it. *)
Lemma rfind_app pat q s :
  rfind pat s ≠ -1 →
  rfind pat (q +:+ s) = Z.of_nat (String.length q) + rfind pat s.
Proof.
  intros Hs. induction q as [|c q IH]; [cbn; lia|].
  change (String c q +:+ s) with (String c (q +:+ s)).
  cbn [rfind String.length]. rewrite IH.
  pose proof (rfind_lower_bound pat s).
  destruct (_ =? -1) eqn:Hi; lia.
Qed.

(** A closing fence followed by text without a backtick is the last
    fence. *)
Lemma rfind_closing_fence post :
  no_backtick post = true → rfind "```" ("```" +:+ post) = 0.
Proof.
  intros Hpost.
  change ("```" +:+ post) with (String "`" (String "`" (String "`" post))).
  assert (∀ p, startswith (String "`" p) post = false) as Hp.
  { intros p. destruct post as [|c post]; [done|].
    cbn [no_backtick] in Hpost. apply andb_prop in Hpost as [Hc _].
    apply negb_true_iff in Hc. by apply startswith_backtick. }
  assert (startswith "```" (String "`" post) = false) as H1.
  { change (startswith "```" (String "`" post))
      with (Ascii.eqb "`" "`" && startswith "``" post).
    by rewrite Hp, andb_false_r. }
  assert (startswith "```" (String "`" (String "`" post)) = false) as H2.
  { change (startswith "```" (String "`" (String "`" post)))
      with (Ascii.eqb "`" "`" && (Ascii.eqb "`" "`" && startswith "`" post)).
    by rewrite Hp, !andb_false_r. }
  cbn [rfind]. rewrite (rfind_no_backtick _ _ Hpost).
  cbn [Z.eqb]. by rewrite H1, H2.
Qed.

Lemma substring_skip pre n s :
  substring (String.length pre) n (pre +:+ s) = substring 0 n s.
Proof. induction pre as [|c pre IH]; [done|]. apply IH. Qed.

Lemma substring_take body s :
  substring 0 (String.length body) (body +:+ s) = body.
Proof.
  induction body as [|c body IH]; [by destruct s|]. cbn. by rewrite IH.
Qed.

Lemma substring_none n s : substring n 0 s = "".
Proof.
  revert n. induction s as [|c s IH]; intros [|n]; try done. apply IH.
Qed.

Lemma length_append s1 s2 :
  String.length (s1 +:+ s2) = (String.length s1 + String.length s2)%nat.
Proof. induction s1 as [|c s1 IH]; [done|]. cbn. by rewrite IH. Qed.

(** In [pre ```json body ``` post], with no backtick in [pre] and [post],
    the slice between the two fences is [body]. *)
Lemma fenced_slice pre body post :
  no_backtick pre = true →
  no_backtick post = true →
  let text := pre +:+ "```json" +:+ body +:+ "```" +:+ post in
  find "```json" text ≠ -1
  ∧ rfind "```" text ≠ -1
  ∧ slice (find "```json" text + 7) (rfind "```" text) text = body.
Proof.
  intros Hpre Hpost text. subst text.
  rewrite (find_after_plain pre "``json" (body +:+ "```" +:+ post) Hpre).
  assert (rfind "```" (pre +:+ "```json" +:+ body +:+ "```" +:+ post)
          = Z.of_nat (String.length pre) + 7 + Z.of_nat (String.length body))
    as ->.
  { rewrite <- (append_assoc "```json" body), <- append_assoc.
    rewrite rfind_app; rewrite rfind_closing_fence by done; [|done].
    rewrite !length_append. cbn [String.length]. lia. }
  split_and!; [lia..|].
  unfold slice.
  replace (Z.to_nat (Z.of_nat (String.length pre) + 7))
    with (String.length (pre +:+ "```json"))
    by (rewrite length_append; cbn [String.length]; lia).
  replace (Z.to_nat _) with (String.length body) by lia.
  rewrite <- (append_assoc pre "```json"), substring_skip.
  apply substring_take.
Qed.

(** In [pre ```json body] with no backtick in [pre] and [body], the opening
    fence is also the last fence, and the slice is empty. *)
Lemma unclosed_slice pre body :
  no_backtick pre = true →
  no_backtick body = true →
  let text := pre +:+ "```json" +:+ body in
  find "```json" text ≠ -1
  ∧ rfind "```" text ≠ -1
  ∧ slice (find "```json" text + 7) (rfind "```" text) text = "".
Proof.
  intros Hpre Hbody text. subst text.
  rewrite (find_after_plain pre "``json" body Hpre).
  assert (no_backtick ("json" +:+ body) = true) as Hjb by done.
  assert (rfind "```" (pre +:+ "```json" +:+ body)
          = Z.of_nat (String.length pre)) as ->.
  { change ("```json" +:+ body) with ("```" +:+ "json" +:+ body).
    rewrite rfind_app; rewrite rfind_closing_fence by done; [lia|done]. }
  split_and!; [lia..|].
  unfold slice. replace (Z.to_nat (_ - _)) with 0%nat by lia.
  apply substring_none.
Qed.

End TextFacts.

Section NewsClaims.

Context (S : news_service).
Implicit Types (w : world) (v : pyval).

(** What the [try] of [query_for_news] does with a reply that has a fence
    and whose slice between the fences is [json_text]. *)
Lemma query_for_news_fenced f t w text :
  client S = Ok tt →
  read_stream (chunks S f t) "" = Ok text →
  find "```json" text ≠ -1 →
  rfind "```" text ≠ -1 →
  query_for_news S f t w
  = match json_loads S (strip (slice (find "```json" text + 7)
                                 (rfind "```" text) text)) with
    | Ok v => (Ok v, w)
    | Raise e =>
        (Ok (PList []),
         World (sent w) (reads w)
               (shown w ++ [StError "Error fetching news: " (Some e)]))
    end.
Proof.
  intros Hc Hread Hfind Hrfind. unfold query_for_news. io_run.
  rewrite Hc, Hread.
  rewrite (proj2 (Z.eqb_neq _ _) Hfind), (proj2 (Z.eqb_neq _ _) Hrfind).
  cbn [negb andb]. by destruct (json_loads S _).
Qed.

(** X16. Without the client [query_for_news] raises before anything else; with
    it, it never raises and touches neither network log nor clock: it
    returns what [json.loads] made of some text and shows nothing, or it
    shows one error and returns the empty list. *)
Theorem query_for_news_never_raises f t w :
  match client S with
  | Raise e => query_for_news S f t w = (Raise e, w)
  | Ok _ =>
      ∃ v w',
        query_for_news S f t w = (Ok v, w')
        ∧ sent w' = sent w ∧ reads w' = reads w
        ∧ ((shown w' = shown w ∧ ∃ text, json_loads S text = Ok v)
           ∨ (v = PList []
              ∧ ∃ msg detail, shown w' = shown w ++ [StError msg detail]))
  end.
Proof.
  unfold query_for_news. io_run.
  destruct (client S) as [[]|e]; [|done].
  destruct (read_stream _ _) as [text|e]; [|eauto 12].
  destruct (negb _ && negb _).
  - destruct (json_loads S _) as [v|e] eqn:Hv; eauto 12.
  - destruct (json_loads S _) as [v|e] eqn:Hv; eauto 12.
Qed.

(** X17. A reply [pre ```json body ``` post] with no backtick before the opening
    and after the closing fence has [body], stripped of the white space
    around it (Unicode white space included), handed to [json.loads]: the
    result is returned as it is, and an exception of the parser becomes the
    error "Error fetching news" and the empty list. *)
Theorem fenced_reply_parsed f t w pre body post :
  client S = Ok tt →
  read_stream (chunks S f t) ""
  = Ok (pre +:+ "```json" +:+ body +:+ "```" +:+ post) →
  no_backtick pre = true →
  no_backtick post = true →
  query_for_news S f t w
  = match json_loads S (strip body) with
    | Ok v => (Ok v, w)
    | Raise e =>
        (Ok (PList []),
         World (sent w) (reads w)
               (shown w ++ [StError "Error fetching news: " (Some e)]))
    end.
Proof.
  intros Hc Hread Hpre Hpost.
  destruct (fenced_slice pre body post Hpre Hpost) as (Hfind & Hrfind & Hs).
  rewrite (query_for_news_fenced f t w _ Hc Hread Hfind Hrfind).
  by rewrite Hs.
Qed.

(** X18. A reply whose fence is opened and never closed, [pre ```json body] with
    no backtick in [pre] and [body], loses its body: the opening fence is
    taken for the closing one as well, the empty text goes to [json.loads],
    and when that raises, the error is shown and the empty list
    returned. *)
Theorem unclosed_fence_reply_lost f t w pre body e :
  client S = Ok tt →
  read_stream (chunks S f t) "" = Ok (pre +:+ "```json" +:+ body) →
  no_backtick pre = true →
  no_backtick body = true →
  json_loads S "" = Raise e →
  query_for_news S f t w
  = (Ok (PList []),
     World (sent w) (reads w)
           (shown w ++ [StError "Error fetching news: " (Some e)])).
Proof.
  intros Hc Hread Hpre Hbody He.
  destruct (unclosed_slice pre body Hpre Hbody) as (Hfind & Hrfind & Hs).
  rewrite (query_for_news_fenced f t w _ Hc Hread Hfind Hrfind).
  rewrite Hs. change (strip "") with "". by rewrite He.
Qed.

(** X19. A reply without a backtick is parsed whole; when the parser raises, the
    error "Failed to parse news response" is shown, without the exception,
    and the empty list returned. *)
Theorem plain_reply_parsed_whole f t w text :
  client S = Ok tt →
  read_stream (chunks S f t) "" = Ok text →
  no_backtick text = true →
  query_for_news S f t w
  = match json_loads S text with
    | Ok v => (Ok v, w)
    | Raise _ =>
        (Ok (PList []),
         World (sent w) (reads w)
               (shown w ++ [StError "Failed to parse news response" None]))
    end.
Proof.
  intros Hc Hread Htext. unfold query_for_news. io_run.
  rewrite Hc, Hread, (find_no_backtick _ _ Htext). cbn [Z.eqb negb andb].
  by destruct (json_loads S text).
Qed.

End NewsClaims.

Example strip_unicode_space :
  strip (nbsp +:+ " [1]" +:+ utf8 [226; 128; 168; 9; 227; 128; 128]) = "[1]".
Proof. reflexivity. Qed.

(** U+200B, the zero-width space, is no white space for [isspace()]. *)
Example strip_keeps_zero_width :
  strip (utf8 [226; 128; 139] +:+ "x ") = utf8 [226; 128; 139] +:+ "x".
Proof. reflexivity. Qed.

Lemma fenced_reply_witness :
  query_for_news
    (toy_news [Ok (Some "Here: ``");
               Ok (Some ("`json" +:+ nbsp +:+ "[1] " +:+ nbsp +:+ "``"));
               Ok (Some "` bye")])
    "USD" "EUR" initial_world
  = (Ok (PList [PInt 1]), initial_world).
Proof.
  apply (fenced_reply_parsed
           (toy_news [Ok (Some "Here: ``");
                      Ok (Some ("`json" +:+ nbsp +:+ "[1] " +:+ nbsp +:+ "``"));
                      Ok (Some "` bye")])
           "USD" "EUR" initial_world "Here: "
           (nbsp +:+ "[1] " +:+ nbsp) " bye");
    reflexivity.
Defined.

Lemma unclosed_fence_witness :
  query_for_news (toy_news [Ok (Some "```json [1]")]) "USD" "EUR" initial_world
  = (Ok (PList []),
     World [] 0 [StError "Error fetching news: " (Some JSONDecodeError)]).
Proof.
  apply (unclosed_fence_reply_lost (toy_news [Ok (Some "```json [1]")])
           "USD" "EUR" initial_world "" " [1]" JSONDecodeError);
    reflexivity.
Defined.

Lemma plain_reply_witness :
  query_for_news (toy_news [Ok (Some "[1"); Ok (Some "]")]) "USD" "EUR"
    initial_world
  = (Ok (PList [PInt 1]), initial_world).
Proof.
  apply (plain_reply_parsed_whole (toy_news [Ok (Some "[1"); Ok (Some "]")])
           "USD" "EUR" initial_world "[1]");
    reflexivity.
Defined.


(** * [main] *)

Example main_healthy :
  ∃ dates rates w',
    main_rates healthy_source "USD" "EUR" initial_world
    = (Ok (Some (RateCard (PFloat lit_0_9)
                   (Some (PFloat Float64.zero, PFloat Float64.zero))
                   (PlotChart dates rates))), w')
    ∧ length dates = 30%nat ∧ length (sent w') = 32%nat ∧ reads w' = 32%nat.
Proof. do 3 eexists. split; [by vm_compute|]. by vm_compute. Qed.

Section MainFacts.

Context (E : environment).
Implicit Types (w : world) (v : pyval).

(** The comparison with yesterday reads the clock once and sends one request
    or two; it raises only when yesterday is not in the calendar, before
    any request, and shows nothing. *)
Lemma yesterday_change_cases f t cur w :
  match yesterday_change E f t cur w with
  | (Ok _, w') =>
      reads w' = S (reads w) ∧ shown w' = shown w
      ∧ ∃ new, sent w' = sent w ++ new ∧ (1 ≤ length new ≤ 2)%nat
  | (Raise e, w') =>
      e = OverflowError ∧ w' = World (sent w) (S (reads w)) (shown w)
      ∧ minus_days (clock E (reads w)) 1 = Raise OverflowError
  end.
Proof.
  unfold yesterday_change. io_run.
  destruct (minus_days _ 1) as [day|e] eqn:Hday.
  2:{ assert (e = OverflowError) as ->; [|done].
      unfold minus_days in Hday. repeat case_match; congruence. }
  destruct (http_get E (sent w) _) as [r1|e1].
  2:{ split_and!; [done..|]. eexists. split; [done|]. cbn. lia. }
  case_bool_decide as Hs1.
  - cbn [sent]. destruct (http_get E (sent w ++ _) _) as [r2|e2].
    2:{ split_and!; [done..|]. eexists. rewrite <- app_assoc.
        split; [done|]. cbn. lia. }
    assert (∃ new, (sent w ++ [historical_url (strftime E day) f])
                     ++ [historical_fallback_url (strftime E day) f]
                   = sent w ++ new ∧ (1 ≤ length new ≤ 2)%nat) as Hnew.
    { eexists. rewrite <- app_assoc. split; [done|]. cbn. lia. }
    case_bool_decide; [|done].
    destruct (json r2) as [d|]; [|done].
    destruct (getitem d _) as [row|]; [|done].
    destruct (getitem row _) as [y|]; [|done].
    destruct (py_sub cur y) as [c|]; [|done].
    by destruct (py_truediv c y).
  - assert (∃ new, sent w ++ [historical_url (strftime E day) f]
                   = sent w ++ new ∧ (1 ≤ length new ≤ 2)%nat) as Hnew.
    { eexists. split; [done|]. cbn. lia. }
    case_bool_decide; [|done].
    destruct (json r1) as [d|]; [|done].
    destruct (getitem d _) as [row|]; [|done].
    destruct (getitem row _) as [y|]; [|done].
    destruct (py_sub cur y) as [c|]; [|done].
    by destruct (py_truediv c y).
Qed.

Lemma py_truediv_zero c y :
  match as_number y with
  | Some (NInt 0) | Some (NFloat (S754_zero _)) => True
  | _ => False
  end →
  py_truediv c y = None.
Proof.
  unfold py_truediv.
  destruct (as_number c) as [[x|fx]|], (as_number y) as [[[]|[]]|];
    try done; cbn;
    repeat (case_match; try done).
Qed.

(** X20. The comparison when yesterday's data is missing is of two kinds. An
    exception in the [try] (the primary request raising, or a 200 answer
    without the pair) gives a change of 0 and 0 percent, which is displayed;
    two answers with a status other than 200 leave the names unbound, and
    no change is displayed at all. *)
Theorem yesterday_missing_data f t cur w day :
  minus_days (clock E (reads w)) 1 = Ok day →
  let url := historical_url (strftime E day) f in
  let fallback := historical_fallback_url (strftime E day) f in
  (∀ e, http_get E (sent w) url = Raise e →
        (yesterday_change E f t cur w).1 = Ok (Some (PInt 0, PInt 0)))
  ∧ (∀ r1,
        http_get E (sent w) url = Ok r1 → status_code r1 = 200 →
        (∀ data row y, ¬ (json r1 = Ok data
                           ∧ getitem data (lower f) = Ok row
                           ∧ getitem row (lower t) = Ok y)) →
        (yesterday_change E f t cur w).1 = Ok (Some (PInt 0, PInt 0)))
  ∧ (∀ r1 r2,
        http_get E (sent w) url = Ok r1 → status_code r1 ≠ 200 →
        http_get E (sent w ++ [url]) fallback = Ok r2 →
        status_code r2 ≠ 200 →
        (yesterday_change E f t cur w).1 = Ok None).
Proof.
  intros Hday url fallback. subst url fallback. split_and!.
  - intros e H1. unfold yesterday_change. io_run. by rewrite Hday, H1.
  - intros r1 H1 Hs1 Hno. unfold yesterday_change. io_run.
    rewrite Hday, H1, bool_decide_eq_false_2 by (by intros []).
    rewrite bool_decide_eq_true_2 by done.
    destruct (json r1) as [d|] eqn:Hj; [|done].
    destruct (getitem d _) as [row|] eqn:Hrow; [|done].
    destruct (getitem row _) as [y|] eqn:Hy; [|done].
    by destruct (Hno d row y).
  - intros r1 r2 H1 Hs1 H2 Hs2. unfold yesterday_change. io_run.
    rewrite Hday, H1, bool_decide_eq_true_2 by done. cbn [sent].
    by rewrite H2, bool_decide_eq_false_2 by done.
Qed.

(** X21. With a latest rate [c] and a rate [y] of yesterday that are floats, [y]
    not zero, the change is [c - y] and the percentage
    [(c - y) / y * 100], the formula of the chart with yesterday as its
    first point. *)
Theorem yesterday_change_of_floats f t w day r1 data row c y :
  minus_days (clock E (reads w)) 1 = Ok day →
  http_get E (sent w) (historical_url (strftime E day) f) = Ok r1 →
  status_code r1 = 200 →
  json r1 = Ok data →
  getitem data (lower f) = Ok row →
  getitem row (lower t) = Ok (PFloat y) →
  is_zero y = false →
  (yesterday_change E f t (PFloat c) w).1
  = Ok (Some (PFloat (Float64.sub c y), PFloat (change_pct y c))).
Proof.
  intros Hday H1 Hs1 Hj Hrow Hy Hz. unfold yesterday_change. io_run.
  rewrite Hday, H1, bool_decide_eq_false_2 by (by intros []).
  rewrite bool_decide_eq_true_2 by done.
  rewrite Hj, Hrow, Hy. cbn [py_sub py_truediv as_number to_float].
  by rewrite Hz.
Qed.

(** X22. A rate of zero for yesterday (0, 0.0 or -0.0) raises
    [ZeroDivisionError] in the percentage, which the bare [except]
    swallows: whatever the latest rate is, the change displayed is 0 and 0
    percent. *)
Theorem yesterday_zero_rate_swallowed f t cur w day r1 data row y :
  minus_days (clock E (reads w)) 1 = Ok day →
  http_get E (sent w) (historical_url (strftime E day) f) = Ok r1 →
  status_code r1 = 200 →
  json r1 = Ok data →
  getitem data (lower f) = Ok row →
  getitem row (lower t) = Ok y →
  (y = PInt 0 ∨ ∃ s, y = PFloat (S754_zero s)) →
  (yesterday_change E f t cur w).1 = Ok (Some (PInt 0, PInt 0)).
Proof.
  intros Hday H1 Hs1 Hj Hrow Hy Hzero. unfold yesterday_change. io_run.
  rewrite Hday, H1, bool_decide_eq_false_2 by (by intros []).
  rewrite bool_decide_eq_true_2 by done.
  rewrite Hj, Hrow, Hy.
  destruct (py_sub cur y) as [c|]; [|done].
  rewrite py_truediv_zero; [done|].
  by destruct Hzero as [->|[s ->]].
Qed.

(** X23. When the latest rate is false in a condition ([None] after a failed
    fetch, but a rate of 0 as well), [main] stops there: no request for
    yesterday or the history, no reading of the clock, no chart and no
    message of its own. *)
Theorem main_stops_without_latest_rate f t w v w1 :
  get_exchange_rate E f t w = (Ok v, w1) →
  py_truthy v = false →
  main_rates E f t w = (Ok None, w1).
Proof.
  intros Hget Hv. unfold main_rates. unfold mbind at 1, io_bind at 1.
  by rewrite Hget, Hv.
Qed.

(** X24. A latest rate that is true in a condition without being a number (a
    non-empty string, list or dict) makes [main] raise when the rate is
    formatted with [.6f], [ValueError] for a string and [TypeError]
    otherwise: after the request for yesterday, before the history is
    fetched. *)
Theorem main_raises_on_non_numeric_rate f t w v w1 day :
  get_exchange_rate E f t w = (Ok v, w1) →
  py_truthy v = true →
  as_number v = None →
  minus_days (clock E (reads w1)) 1 = Ok day →
  ∃ w' new,
    main_rates E f t w
    = (Raise (match v with PStr _ => ValueError | _ => TypeError end), w')
    ∧ reads w' = S (reads w1)
    ∧ sent w' = sent w1 ++ new ∧ (1 ≤ length new ≤ 2)%nat.
Proof.
  intros Hget Hv Hnum Hday. unfold main_rates.
  unfold mbind at 1, io_bind at 1. rewrite Hget, Hv.
  unfold mbind at 1, io_bind at 1.
  pose proof (yesterday_change_cases f t v w1) as Hy.
  destruct (yesterday_change E f t v w1) as [[daily|e] w2].
  - destruct Hy as (Hr & _ & new & Hsent & Hnew).
    exists w2, new. unfold mbind, io_bind, lift.
    by destruct v.
  - destruct Hy as (_ & _ & Hraise). congruence.
Qed.

Lemma format_f_raises v e :
  format_f v = Raise e → e = OverflowError ∨ e = ValueError ∨ e = TypeError.
Proof.
  destruct v; cbn; try (intros [= <-]; auto); try done.
  destruct (int_to_float z); [done|]. intros [= <-]. auto.
Qed.

Lemma historical_raise_overflow f t days w e w' :
  get_historical_rates E f t days w = (Raise e, w') → e = OverflowError.
Proof.
  rewrite get_historical_rates_attempts.
  pose proof (attempts_cases E f t (range_down days) w) as Hcases.
  unfold mbind, io_bind, mret, io_ret.
  destruct (attempts E f t (range_down days) w) as [[log|e1] w1]; [done|].
  by intros [= <- _].
Qed.

(** X25. The cost of a run of [main]'s rates column. With a latest rate that is
    false it ends after the one or two requests of that fetch. Otherwise,
    when it gets to the chart, it has read the clock 32 times and sent
    between 32 and 64 requests: one or two each for the latest rate, for
    yesterday and for each of the 30 days. The only exceptions are the
    [OverflowError] of a date outside the calendar or an integer too large
    for a float, and the [ValueError] or [TypeError] of formatting a rate
    that is no number. *)
Theorem main_request_budget f t w :
  match main_rates E f t w with
  | (Ok (Some _), w') =>
      reads w' = (reads w + 32)%nat
      ∧ ∃ new, sent w' = sent w ++ new ∧ (32 ≤ length new ≤ 64)%nat
  | (Ok None, w') =>
      reads w' = reads w
      ∧ ∃ new, sent w' = sent w ++ new ∧ (1 ≤ length new ≤ 2)%nat
  | (Raise e, _) => e = OverflowError ∨ e = ValueError ∨ e = TypeError
  end.
Proof.
  unfold main_rates. unfold mbind at 1, io_bind at 1.
  destruct (get_exchange_rate_total E f t w) as (v & w1 & -> & Hr1 & Hs1).
  assert (∃ new1, sent w1 = sent w ++ new1 ∧ (1 ≤ length new1 ≤ 2)%nat)
    as (new1 & Hsent1 & Hn1).
  { destruct Hs1 as [->| ->]; eexists; (split; [done|]); cbn; lia. }
  clear Hs1. destruct (py_truthy v); [|cbn; eauto].
  unfold mbind at 1, io_bind at 1.
  pose proof (yesterday_change_cases f t v w1) as Hy.
  destruct (yesterday_change E f t v w1) as [[daily|e] w2];
    [|left; by destruct Hy].
  destruct Hy as (Hr2 & _ & new2 & Hsent2 & Hn2).
  unfold mbind at 1, io_bind at 1, lift at 1.
  destruct (format_f v) as [[]|e] eqn:Hfv; [|by eapply format_f_raises].
  unfold mbind at 1, io_bind at 1.
  assert (∀ (k : io (option rate_card)),
            (∀ w0, match k w0 with
                   | (Ok (Some _), w') =>
                       reads w' = (reads w0 + 31)%nat
                       ∧ ∃ new, sent w' = sent w0 ++ new
                                ∧ (30 ≤ length new ≤ 60)%nat
                   | (Ok None, _) => False
                   | (Raise e, _) =>
                       e = OverflowError ∨ e = ValueError ∨ e = TypeError
                   end) →
            match k w2 with
            | (Ok (Some _), w') =>
                reads w' = (reads w + 32)%nat
                ∧ ∃ new, sent w' = sent w ++ new ∧ (32 ≤ length new ≤ 64)%nat
            | (Ok None, w') =>
                reads w' = reads w
                ∧ ∃ new, sent w' = sent w ++ new ∧ (1 ≤ length new ≤ 2)%nat
            | (Raise e, _) =>
                e = OverflowError ∨ e = ValueError ∨ e = TypeError
            end) as Hrest.
  { intros k Hk. specialize (Hk w2).
    destruct (k w2) as [[[card|]|e] w']; try done.
    destruct Hk as (Hr & new & Hsent & Hn). split; [lia|].
    exists (new1 ++ new2 ++ new).
    rewrite Hsent, Hsent2, Hsent1, <- !app_assoc. split; [done|].
    rewrite !length_app. lia. }
  assert (∀ w0,
            match (datetime_now E;;
                   '(dates, rates) ← get_historical_rates E f t 30;
                   if truthy dates && truthy rates
                   then mret (Some (RateCard v daily (PlotChart dates rates)))
                   else st_error insufficient_data None;;
                        mret (Some (RateCard v daily NoChart))) w0 with
            | (Ok (Some _), w') =>
                reads w' = (reads w0 + 31)%nat
                ∧ ∃ new, sent w' = sent w0 ++ new ∧ (30 ≤ length new ≤ 60)%nat
            | (Ok None, _) => False
            | (Raise e, _) =>
                e = OverflowError ∨ e = ValueError ∨ e = TypeError
            end) as Htail.
  { intros w0. unfold mbind at 1, io_bind at 1, datetime_now at 1.
    set (w3 := World (sent w0) (S (reads w0)) (shown w0)).
    unfold mbind at 1, io_bind at 1.
    pose proof (historical_effect E f t 30 w3) as Hh.
    destruct (get_historical_rates E f t 30 w3) as [[[dates rates]|e] w4] eqn:Hg.
    - destruct Hh as (_ & Hr4 & new & Hsent4 & Hn4).
      change (Z.to_nat 30) with 30%nat in *.
      destruct (truthy dates && truthy rates); cbn;
        (split; [subst w3; cbn in *; lia|]);
        exists new; (split; [done|lia]).
    - left. by eapply historical_raise_overflow. }
  destruct daily as [[change percent]|].
  - destruct (format_f change) as [[]|e] eqn:Hfc.
    2:{ cbv beta iota delta [mbind io_bind lift].
        by eapply format_f_raises. }
    destruct (format_f percent) as [[]|e] eqn:Hfp.
    2:{ cbv beta iota delta [mbind io_bind lift].
        by eapply format_f_raises. }
    apply (Hrest _ Htail).
  - unfold mret at 1, io_ret at 1. apply (Hrest _ Htail).
Qed.

End MainFacts.

Lemma yesterday_missing_witness :
  (yesterday_change unreachable_source "USD" "EUR" (PFloat lit_0_9)
     initial_world).1
  = Ok (Some (PInt 0, PInt 0)).
Proof.
  apply (proj1 (yesterday_missing_data unreachable_source "USD" "EUR"
                  (PFloat lit_0_9) initial_world (a_tuesday - 1) eq_refl)
           ConnectionError).
  reflexivity.
Defined.

Lemma yesterday_floats_witness :
  (yesterday_change healthy_source "USD" "EUR" (PFloat lit_0_9)
     initial_world).1
  = Ok (Some (PFloat (Float64.sub lit_0_9 lit_0_9),
              PFloat (change_pct lit_0_9 lit_0_9))).
Proof.
  apply (yesterday_change_of_floats healthy_source "USD" "EUR" initial_world
           (a_tuesday - 1)
           (Response 200 (Ok (usd_eur_body (PFloat lit_0_9))))
           (usd_eur_body (PFloat lit_0_9))
           (PDict {[ "eur" := PFloat lit_0_9 ]}));
    reflexivity.
Defined.

Lemma yesterday_zero_witness :
  (yesterday_change zero_yesterday "USD" "EUR" (PFloat lit_0_9)
     initial_world).1
  = Ok (Some (PInt 0, PInt 0)).
Proof.
  apply (yesterday_zero_rate_swallowed zero_yesterday "USD" "EUR"
           (PFloat lit_0_9) initial_world (a_tuesday - 1)
           (Response 200 (Ok (usd_eur_body (PInt 0))))
           (usd_eur_body (PInt 0))
           (PDict {[ "eur" := PInt 0 ]}) (PInt 0));
    try reflexivity.
  by left.
Defined.

Lemma main_stops_witness :
  main_rates unreachable_source "USD" "EUR" initial_world
  = (Ok None,
     World [latest_primary_url "USD"] 0
       [StError "Failed to fetch exchange rate: " (Some ConnectionError)]).
Proof.
  apply (main_stops_without_latest_rate unreachable_source "USD" "EUR"
           initial_world PNone);
    reflexivity.
Defined.

Lemma main_raises_witness :
  ∃ w' new,
    main_rates string_source "USD" "EUR" initial_world
    = (Raise ValueError, w')
    ∧ reads w' = 1%nat
    ∧ sent w' = [latest_primary_url "USD"] ++ new
    ∧ (1 ≤ length new ≤ 2)%nat.
Proof.
  apply (main_raises_on_non_numeric_rate string_source "USD" "EUR"
           initial_world (PStr "0.9")
           (World [latest_primary_url "USD"] 0 []) (a_tuesday - 1));
    reflexivity.
Defined.
